(** * VoTT: rectangle selector and CSV export

    A shallow embedding of

    - [RectSelector] (CanvasTools, Selection/Selectors/RectSelector.ts): the
      pointer and keyboard handlers of the rectangle selector, with the
      animation-frame queue the pointer handlers defer their bodies to;
    - [CsvExportProvider.export] (src/providers/export/csv.ts): the per-asset
      validation and the emission of CSV records.

    Numbers are JavaScript numbers in the source; pixel coordinates and sizes
    are modelled as integers ([Z]).  *)

From Stdlib Require Import ZArith List Bool String Lia.
Import ListNotations.
Open Scope Z_scope.

(* ================================================================== *)
(** ** Geometry primitives (Core/Point2D, Core/Rect, Core/RegionData)  *)
(* ================================================================== *)

Module Point2D.
(** Modelled from the spec: Core/Point2D is missing; the data model gives
    a point as [{x, y}]. *)
Record t : Set := mk { x : Z; y : Z }.
End Point2D.

Module Rect.
(** Modelled from the spec: Core/Rect is missing; the data model gives a
    rectangle as [{width, height}]. *)
Record t : Set := mk { width : Z; height : Z }.
End Rect.

Module RegionData.
(** Modelled from the spec: Core/RegionData is missing; the region output
    format is [{type: RECT | POLYGON | POINT, x, y, width, height}]. *)
Inductive RegionDataType : Set := Point | Rect | Polygon.

(** Modelled from the spec: the fields of the region output format. *)
Record t : Set := mk {
  type : RegionDataType;
  x : Z;
  y : Z;
  width : Z;
  height : Z
}.

(** Modelled from the spec: [RegionData.BuildRectRegionData] lives in
    Core/RegionData, which is not among the sources verified here.  The spec
    describes it as producing a RECT region [{x, y, width, height}]
    normalised so that [x, y] is the top-left corner and the size is
    non-negative.  On a non-negative size (the only way the selector calls
    it) this is the plain constructor, see [BuildRectRegionData_nonneg]. *)
Definition BuildRectRegionData (x y w h : Z) : t :=
  mk Rect (Z.min x (x + w)) (Z.min y (y + h)) (Z.abs w) (Z.abs h).
End RegionData.

(** Modelled from the spec: [Point2D.boundToRect] is not among the sources
    verified here; the spec states that crosses clamp themselves to the
    bound rectangle, whose origin is the top-left corner of the surface. *)
Definition boundToRect (r : Rect.t) (p : Point2D.t) : Point2D.t :=
  Point2D.mk (Z.max 0 (Z.min (Rect.width r) (Point2D.x p)))
             (Z.max 0 (Z.min (Rect.height r) (Point2D.y p))).

Definition inRect (r : Rect.t) (p : Point2D.t) : Prop :=
  0 <= Point2D.x p <= Rect.width r /\ 0 <= Point2D.y p <= Rect.height r.

(* ================================================================== *)
(** ** Scene elements (Component/CrossElement, RectElement, MaskElement) *)
(* ================================================================== *)

(** The three element classes are not among the sources verified here.
    The spec gives their contract: [move(point)], [resize(width, height)],
    [show()], [hide()], and no other behaviour. *)
Module CrossElement.
(** Modelled from the spec: the class [CrossElement] is missing; the
    selector reads a cross as a point ([crossA.x], [crossA.y]) and shows or
    hides it. *)
Record t : Set := mk { x : Z; y : Z; isVisible : bool }.

(** A cross passed where the selector expects an [IPoint2D]. *)
Definition point (c : t) : Point2D.t := Point2D.mk (x c) (y c).

(** Modelled from the spec: [CrossElement.move] is missing; the spec has
    the cross clamp the target to the bound rectangle; with the square
    constraint the side is the larger of
    [|dx|] and [|dy|], signed by the quadrant of the cursor relative to
    the reference cross. *)
Definition move (p : Point2D.t) (boundRect : Rect.t) (square : bool)
           (ref : Point2D.t) (c : t) : t :=
  let np := boundToRect boundRect p in
  if square then
    let dx := Point2D.x np - Point2D.x ref in
    let dy := Point2D.y np - Point2D.y ref in
    let d := Z.max (Z.abs dx) (Z.abs dy) in
    mk (Point2D.x ref + d * Z.sgn dx) (Point2D.y ref + d * Z.sgn dy)
       (isVisible c)
  else mk (Point2D.x np) (Point2D.y np) (isVisible c).

(** Modelled from the spec: [show()] and [hide()] of the missing class. *)
Definition setVisible (b : bool) (c : t) : t := mk (x c) (y c) b.
End CrossElement.

Module RectElement.
(** Modelled from the spec: the class [RectElement] is missing; a
    rectangle has an origin, a size and a visibility. *)
Record t : Set := mk {
  x : Z; y : Z; width : Z; height : Z; isVisible : bool
}.

(** Modelled from the spec: [move(point)] of the missing class. *)
Definition move (p : Point2D.t) (r : t) : t :=
  mk (Point2D.x p) (Point2D.y p) (width r) (height r) (isVisible r).

(** Modelled from the spec: [resize(width, height)] of the missing class. *)
Definition resize (w h : Z) (r : t) : t :=
  mk (x r) (y r) w h (isVisible r).

(** Modelled from the spec: [show()] and [hide()] of the missing class. *)
Definition setVisible (b : bool) (r : t) : t :=
  mk (x r) (y r) (width r) (height r) b.
End RectElement.

Module MaskElement.
(** Modelled from the spec: the class [MaskElement] is missing; the
    selector only shows and hides the mask. *)
Record t : Set := mk { isVisible : bool }.

(** Modelled from the spec: [show()] and [hide()] of the missing class. *)
Definition setVisible (b : bool) (_ : t) : t := mk b.
End MaskElement.

(* ================================================================== *)
(** ** The selector                                                    *)
(* ================================================================== *)

(** [ISelectorCallbacks]: both hooks are optional; the handlers test
    [typeof this.callbacks.onSelectionBegin === "function"] before a call.
    A field is [true] when the hook is a function. *)
Record ISelectorCallbacks : Set := mkCallbacks {
  has_onSelectionBegin : bool;
  has_onSelectionEnd : bool
}.

Inductive SelectionModificator : Set := RECT | SQUARE.

Definition isSquare (m : SelectionModificator) : bool :=
  match m with SQUARE => true | RECT => false end.

Record RectSelector : Set := mkRectSelector {
  boundRect : Rect.t;
  callbacks : ISelectorCallbacks;
  (** visibility of the selector's own node, owned by the base class *)
  isVisible : bool;
  crossA : CrossElement.t;
  crossB : CrossElement.t;
  selectionBox : RectElement.t;
  mask : MaskElement.t;
  capturingState : bool;
  isTwoPoints : bool;
  selectionModificator : SelectionModificator
}.

Definition set_isVisible (b : bool) (s : RectSelector) : RectSelector :=
  mkRectSelector (boundRect s) (callbacks s) b (crossA s) (crossB s)
    (selectionBox s) (mask s) (capturingState s) (isTwoPoints s)
    (selectionModificator s).

Definition set_crossA (c : CrossElement.t) (s : RectSelector) : RectSelector :=
  mkRectSelector (boundRect s) (callbacks s) (isVisible s) c (crossB s)
    (selectionBox s) (mask s) (capturingState s) (isTwoPoints s)
    (selectionModificator s).

Definition set_crossB (c : CrossElement.t) (s : RectSelector) : RectSelector :=
  mkRectSelector (boundRect s) (callbacks s) (isVisible s) (crossA s) c
    (selectionBox s) (mask s) (capturingState s) (isTwoPoints s)
    (selectionModificator s).

Definition set_selectionBox (r : RectElement.t) (s : RectSelector)
  : RectSelector :=
  mkRectSelector (boundRect s) (callbacks s) (isVisible s) (crossA s)
    (crossB s) r (mask s) (capturingState s) (isTwoPoints s)
    (selectionModificator s).

Definition set_mask (m : MaskElement.t) (s : RectSelector) : RectSelector :=
  mkRectSelector (boundRect s) (callbacks s) (isVisible s) (crossA s)
    (crossB s) (selectionBox s) m (capturingState s) (isTwoPoints s)
    (selectionModificator s).

Definition set_capturingState (b : bool) (s : RectSelector) : RectSelector :=
  mkRectSelector (boundRect s) (callbacks s) (isVisible s) (crossA s)
    (crossB s) (selectionBox s) (mask s) b (isTwoPoints s)
    (selectionModificator s).

Definition set_isTwoPoints (b : bool) (s : RectSelector) : RectSelector :=
  mkRectSelector (boundRect s) (callbacks s) (isVisible s) (crossA s)
    (crossB s) (selectionBox s) (mask s) (capturingState s) b
    (selectionModificator s).

Definition set_selectionModificator (m : SelectionModificator)
           (s : RectSelector) : RectSelector :=
  mkRectSelector (boundRect s) (callbacks s) (isVisible s) (crossA s)
    (crossB s) (selectionBox s) (mask s) (capturingState s) (isTwoPoints s) m.

(** The elements the selector owns, as the handlers name them in the lists
    they pass to [hideAll] and [showAll]. *)
Inductive ElementRef : Set := CrossA | CrossB | SelectionBox | Mask.

Definition setVisible (b : bool) (s : RectSelector) (e : ElementRef)
  : RectSelector :=
  match e with
  | CrossA => set_crossA (CrossElement.setVisible b (crossA s)) s
  | CrossB => set_crossB (CrossElement.setVisible b (crossB s)) s
  | SelectionBox => set_selectionBox (RectElement.setVisible b (selectionBox s)) s
  | Mask => set_mask (MaskElement.setVisible b (mask s)) s
  end.

(** Modelled from the spec: [hideAll], [showAll] and [moveCross] belong to
    the base class [Selector], which is not among the sources verified here.
    They apply the element contract ([hide()], [show()], [move(point)]) to
    the elements they are given; [moveCross] passes the selector's bound
    rectangle to the cross. *)
Definition hideAll (es : list ElementRef) (s : RectSelector) : RectSelector :=
  fold_left (setVisible false) es s.

(** Modelled from the spec: [Selector.showAll] is missing; it shows the
    elements it is given. *)
Definition showAll (es : list ElementRef) (s : RectSelector) : RectSelector :=
  fold_left (setVisible true) es s.

(** The cross handed to [moveCross]: [this.crossA] or [this.crossB]. *)
Inductive CrossRef : Set := A | B.

(** Modelled from the spec: [Selector.moveCross] is missing; it moves the
    cross it is given with the bound rectangle of the selector. *)
Definition moveCross (c : CrossRef) (p : Point2D.t) (square : bool)
           (ref : Point2D.t) (s : RectSelector) : RectSelector :=
  match c with
  | A => set_crossA (CrossElement.move p (boundRect s) square ref (crossA s)) s
  | B => set_crossB (CrossElement.move p (boundRect s) square ref (crossB s)) s
  end.

(** [moveCross(cross, p)]: the two optional arguments are left out. *)
Definition moveCrossTo (c : CrossRef) (p : Point2D.t) (s : RectSelector)
  : RectSelector :=
  moveCross c p false (Point2D.mk 0 0) s.

(** [RectSelector.moveSelectionBox] *)
Definition moveSelectionBox (box : RectElement.t) (pa pb : Point2D.t)
  : RectElement.t :=
  let x := if Point2D.x pa <? Point2D.x pb then Point2D.x pa else Point2D.x pb in
  let y := if Point2D.y pa <? Point2D.y pb then Point2D.y pa else Point2D.y pb in
  let w := Z.abs (Point2D.x pa - Point2D.x pb) in
  let h := Z.abs (Point2D.y pa - Point2D.y pb) in
  RectElement.resize w h (RectElement.move (Point2D.mk x y) box).

(** [this.moveSelectionBox(this.selectionBox, this.crossA, this.crossB)] *)
Definition syncSelectionBox (s : RectSelector) : RectSelector :=
  set_selectionBox
    (moveSelectionBox (selectionBox s) (CrossElement.point (crossA s))
                      (CrossElement.point (crossB s))) s.

(** The region handed to [onSelectionEnd] by [onPointerUp]: the same four
    lines in the one-point and in the two-point branch. *)
Definition commitRegion (a b : CrossElement.t) : RegionData.t :=
  let x := Z.min (CrossElement.x a) (CrossElement.x b) in
  let y := Z.min (CrossElement.y a) (CrossElement.y b) in
  let w := Z.abs (CrossElement.x a - CrossElement.x b) in
  let h := Z.abs (CrossElement.y a - CrossElement.y b) in
  RegionData.BuildRectRegionData x y w h.

(* ================================================================== *)
(** ** Host environment: events, pointer capture, animation frames     *)
(* ================================================================== *)

Record PointerEvent : Set := mkPointerEvent {
  clientX : Z;
  clientY : Z;
  pointerId : Z
}.

Record KeyboardEvent : Set := mkKeyboardEvent {
  shiftKey : bool;
  ctrlKey : bool
}.

(** What leaves the selector: the two hooks of [ISelectorCallbacks] and the
    pointer-capture requests made on the parent node. *)
Inductive Effect : Set :=
| SetPointerCapture (id : Z)
| ReleasePointerCapture (id : Z)
| OnSelectionBegin
| OnSelectionEnd (region : RegionData.t).

(** The closures the pointer handlers hand to
    [window.requestAnimationFrame]; each one captures its event. *)
Inductive FrameCallback : Set :=
| EnterFrame
| LeaveFrame (e : PointerEvent)
| DownFrame (e : PointerEvent)
| UpFrame (e : PointerEvent)
| MoveFrame (e : PointerEvent).

Record World : Set := mkWorld {
  selector : RectSelector;
  (** [parentNode.getClientRects()[0]]: left and top of the surface *)
  clientLeft : Z;
  clientTop : Z;
  (** callbacks requested for the next animation frame, oldest first *)
  frameRequests : list FrameCallback;
  (** effects performed so far, oldest first *)
  trace : list Effect
}.

Definition upd (f : RectSelector -> RectSelector) (w : World) : World :=
  mkWorld (f (selector w)) (clientLeft w) (clientTop w) (frameRequests w)
          (trace w).

Definition emit (eff : Effect) (w : World) : World :=
  mkWorld (selector w) (clientLeft w) (clientTop w) (frameRequests w)
          (trace w ++ [eff]).

Definition requestAnimationFrame (cb : FrameCallback) (w : World) : World :=
  mkWorld (selector w) (clientLeft w) (clientTop w) (frameRequests w ++ [cb])
          (trace w).

Definition clearFrameRequests (w : World) : World :=
  mkWorld (selector w) (clientLeft w) (clientTop w) [] (trace w).

(** [new Point2D(e.clientX - rect[0].left, e.clientY - rect[0].top)] *)
Definition localPoint (e : PointerEvent) (w : World) : Point2D.t :=
  Point2D.mk (clientX e - clientLeft w) (clientY e - clientTop w).

(* ================================================================== *)
(** ** RectSelector: public methods                                    *)
(* ================================================================== *)

(** Modelled from the spec: [super.hide()] is a method of the base class,
    which is missing; by the element contract it hides the selector's own
    node.  The rest is [this.hideAll([this.crossA, this.crossB,
    this.mask])]. *)
Definition hide (s : RectSelector) : RectSelector :=
  hideAll [CrossA; CrossB; Mask] (set_isVisible false s).

(** Modelled from the spec: [super.show()] is a method of the base class,
    which is missing; by the element contract it shows the selector's own
    node.  The rest is [this.crossA.show()]. *)
Definition show (s : RectSelector) : RectSelector :=
  setVisible true (set_isVisible true s) CrossA.

(** Modelled from the spec: the constructors of the elements are not among
    the sources verified here and the spec gives no initial position; the
    crosses start at the origin.  The selection box is built on
    [new Rect(0, 0)].  The flags start as the field initialisers of the
    class say. *)
Definition buildUIElements (boundRect : Rect.t)
           (callbacks : ISelectorCallbacks) : RectSelector :=
  mkRectSelector boundRect callbacks true
    (CrossElement.mk 0 0 true) (CrossElement.mk 0 0 true)
    (RectElement.mk 0 0 0 0 true) (MaskElement.mk true)
    false false RECT.

Definition newRectSelector (boundRect : Rect.t)
           (callbacks : ISelectorCallbacks) : RectSelector :=
  hide (buildUIElements boundRect callbacks).

(* ================================================================== *)
(** ** RectSelector: bodies of the pointer handlers                    *)
(* ================================================================== *)

(** Each pointer handler wraps its whole body in
    [window.requestAnimationFrame(() => { ... })]; these are the bodies. *)

Definition onPointerEnter_frame (w : World) : World :=
  upd (fun s => setVisible true s CrossA) w.

Definition onPointerLeave_frame (e : PointerEvent) (w : World) : World :=
  let p := localPoint e w in
  if negb (capturingState (selector w)) then
    upd (hideAll [CrossA; CrossB; SelectionBox]) w
  else if isTwoPoints (selector w) && capturingState (selector w) then
    let w := upd (moveCrossTo B p) w in
    upd syncSelectionBox w
  else w.

Definition onPointerDown_frame (e : PointerEvent) (w : World) : World :=
  if negb (isTwoPoints (selector w)) then
    let w := upd (set_capturingState true) w in
    let w := emit (SetPointerCapture (pointerId e)) w in
    let w := upd (fun s => moveCrossTo B (CrossElement.point (crossA s)) s) w in
    let w := upd syncSelectionBox w in
    let w := upd (showAll [Mask; CrossB; SelectionBox]) w in
    if has_onSelectionBegin (callbacks (selector w))
    then emit OnSelectionBegin w
    else w
  else w.

Definition onPointerUp_frame (e : PointerEvent) (w : World) : World :=
  let p := localPoint e w in
  if negb (isTwoPoints (selector w)) then
    let w := upd (set_capturingState false) w in
    let w := emit (ReleasePointerCapture (pointerId e)) w in
    let w := upd (hideAll [CrossB; Mask]) w in
    if has_onSelectionEnd (callbacks (selector w))
    then emit (OnSelectionEnd
                 (commitRegion (crossA (selector w)) (crossB (selector w)))) w
    else w
  else
    if capturingState (selector w) then
      let w := upd (set_capturingState false) w in
      let w := upd (hideAll [CrossB; Mask]) w in
      let w :=
        if has_onSelectionEnd (callbacks (selector w))
        then emit (OnSelectionEnd
                     (commitRegion (crossA (selector w)) (crossB (selector w)))) w
        else w in
      let w := upd (moveCrossTo A p) w in
      upd (moveCrossTo B p) w
    else
      let w := upd (set_capturingState true) w in
      let w := upd (moveCrossTo B p) w in
      let w := upd syncSelectionBox w in
      let w := upd (showAll [CrossA; CrossB; SelectionBox; Mask]) w in
      if has_onSelectionBegin (callbacks (selector w))
      then emit OnSelectionBegin w
      else w.

(** [this.moveCross(this.crossB, p, this.selectionModificator ===
    SelectionModificator.SQUARE, this.crossA)] followed by
    [moveSelectionBox]: the same two lines in both modes. *)
Definition trackCrossB (p : Point2D.t) (w : World) : World :=
  let w := upd (fun s => moveCross B p (isSquare (selectionModificator s))
                           (CrossElement.point (crossA s)) s) w in
  upd syncSelectionBox w.

Definition onPointerMove_frame (e : PointerEvent) (w : World) : World :=
  let p := localPoint e w in
  let w := upd (fun s => setVisible true s CrossA) w in
  if negb (isTwoPoints (selector w)) then
    if capturingState (selector w) then trackCrossB p w
    else upd (moveCrossTo A p) w
  else
    if capturingState (selector w) then trackCrossB p w
    else
      let w := upd (moveCrossTo A p) w in
      upd (moveCrossTo B p) w.

Definition runFrameCallback (w : World) (cb : FrameCallback) : World :=
  match cb with
  | EnterFrame => onPointerEnter_frame w
  | LeaveFrame e => onPointerLeave_frame e w
  | DownFrame e => onPointerDown_frame e w
  | UpFrame e => onPointerUp_frame e w
  | MoveFrame e => onPointerMove_frame e w
  end.

(** One animation frame: the callbacks requested since the last frame run
    in the order they were requested. *)
Definition animationFrame (w : World) : World :=
  fold_left runFrameCallback (frameRequests w) (clearFrameRequests w).

(* ================================================================== *)
(** ** RectSelector: listeners                                         *)
(* ================================================================== *)

(** The pointer listeners only request a frame.  [onPointerMove] also calls
    [e.preventDefault()], which acts on the event and on nothing modelled
    here. *)
Definition onPointerEnter (e : PointerEvent) : World -> World :=
  requestAnimationFrame EnterFrame.

Definition onPointerLeave (e : PointerEvent) : World -> World :=
  requestAnimationFrame (LeaveFrame e).

Definition onPointerDown (e : PointerEvent) : World -> World :=
  requestAnimationFrame (DownFrame e).

Definition onPointerUp (e : PointerEvent) : World -> World :=
  requestAnimationFrame (UpFrame e).

Definition onPointerMove (e : PointerEvent) : World -> World :=
  requestAnimationFrame (MoveFrame e).

(** The key listeners run at once, without a frame. *)
Definition onKeyDown (e : KeyboardEvent) (w : World) : World :=
  let w :=
    if shiftKey e then upd (set_selectionModificator SQUARE) w else w in
  if ctrlKey e && negb (capturingState (selector w))
  then upd (set_isTwoPoints true) w
  else w.

Definition onKeyUp (e : KeyboardEvent) (w : World) : World :=
  let w :=
    if negb (shiftKey e) then upd (set_selectionModificator RECT) w else w in
  if negb (ctrlKey e) && isTwoPoints (selector w) then
    let w := upd (set_isTwoPoints false) w in
    let w := upd (set_capturingState false) w in
    let w := upd (fun s => moveCrossTo A (CrossElement.point (crossB s)) s) w in
    upd (hideAll [CrossB; SelectionBox; Mask]) w
  else w.

(** What the host does to a selector here: it delivers an event to one of
    the listeners of the table built in [buildUIElements], runs an
    animation frame, or calls [hide()] or [show()].  The third public
    method, [resize(width, height)], is not among these inputs: it is
    [super.resize] and [resizeAll], both of the missing base class, acting
    on the bound rectangle and on elements whose classes are missing. *)
Inductive Input : Set :=
| PointerEnter (e : PointerEvent)
| PointerLeave (e : PointerEvent)
| PointerDown (e : PointerEvent)
| PointerUp (e : PointerEvent)
| PointerMove (e : PointerEvent)
| KeyDown (e : KeyboardEvent)
| KeyUp (e : KeyboardEvent)
| AnimationFrame
| CallHide
| CallShow.

Definition step (w : World) (i : Input) : World :=
  match i with
  | PointerEnter e => onPointerEnter e w
  | PointerLeave e => onPointerLeave e w
  | PointerDown e => onPointerDown e w
  | PointerUp e => onPointerUp e w
  | PointerMove e => onPointerMove e w
  | KeyDown e => onKeyDown e w
  | KeyUp e => onKeyUp e w
  | AnimationFrame => animationFrame w
  | CallHide => upd hide w
  | CallShow => upd show w
  end.

Definition run (ins : list Input) (w : World) : World :=
  fold_left step ins w.

(* ================================================================== *)
(** ** Observations on a run                                           *)
(* ================================================================== *)

(** A pointer event of pointer [id] at the point [(x, y)] of the surface. *)
Definition pointerAt (w : World) (id x y : Z) : PointerEvent :=
  mkPointerEvent (clientLeft w + x) (clientTop w + y) id.

(** The regions handed to [onSelectionEnd], oldest first. *)
Fixpoint selectionEnds (t : list Effect) : list RegionData.t :=
  match t with
  | [] => []
  | OnSelectionEnd r :: t' => r :: selectionEnds t'
  | _ :: t' => selectionEnds t'
  end.

(** The number of calls of [onSelectionBegin]. *)
Fixpoint selectionBegins (t : list Effect) : nat :=
  match t with
  | [] => O
  | OnSelectionBegin :: t' => S (selectionBegins t')
  | _ :: t' => selectionBegins t'
  end.

Definition isCaptureCall (eff : Effect) : bool :=
  match eff with
  | SetPointerCapture _ | ReleasePointerCapture _ => true
  | _ => false
  end.

(** The calls of [setPointerCapture] and [releasePointerCapture]. *)
Definition captureCalls (t : list Effect) : list Effect :=
  filter isCaptureCall t.

(** The frame callback an input requests, if it is a pointer event. *)
Definition frameCallbackOf (i : Input) : list FrameCallback :=
  match i with
  | PointerEnter _ => [EnterFrame]
  | PointerLeave e => [LeaveFrame e]
  | PointerDown e => [DownFrame e]
  | PointerUp e => [UpFrame e]
  | PointerMove e => [MoveFrame e]
  | _ => []
  end.

(** Pointer events and animation frames only: no key event and no call of
    a public method. *)
Definition pointerOrFrame (i : Input) : bool :=
  match i with
  | KeyDown _ | KeyUp _ | CallHide | CallShow => false
  | _ => true
  end.

(** A run followed by the animation frame that lets the last requests
    take effect. *)
Definition settle (ins : list Input) (w : World) : World :=
  animationFrame (run ins w).

(** A surface of 100 by 100 pixels whose top-left corner is at (7, 3) of the
    viewport, with both hooks registered, just constructed. *)
Definition sampleWorld : World :=
  mkWorld (newRectSelector (Rect.mk 100 100) (mkCallbacks true true))
          7 3 [] [].

Definition ctrlDown : KeyboardEvent := mkKeyboardEvent false true.
Definition ctrlUp : KeyboardEvent := mkKeyboardEvent false false.

(* ================================================================== *)
(** ** CSV export (src/providers/export/csv.ts)                        *)
(* ================================================================== *)

(** The types of models/applicationState are not among the sources
    verified here.  The records below carry the fields that [export] reads
    and writes. *)

(** Modelled from the spec: the enum [AssetState] is missing; the export
    names only [NotVisited] (the spec: the asset is marked unvisited), the
    other two stand for the states an asset is in before. *)
Inductive AssetState : Set := NotVisited | Visited | Tagged.

Module Size.
(** Modelled from the spec: the recorded size of an asset
    ([asset.size.width], [asset.size.height]) and the measured one
    ([assetProps.width], [assetProps.height]). *)
Record t : Set := mk { width : Z; height : Z }.
End Size.

Module Asset.
(** Modelled from the spec: the type [IAsset] is missing; [export] reads
    [name] and [size] and writes [state]. *)
Record t : Set := mk { name : string; size : Size.t; state : AssetState }.

(** [assetMetadata.asset.state = ...] *)
Definition set_state (st : AssetState) (a : t) : t := mk (name a) (size a) st.
End Asset.

Module BoundingBox.
(** Modelled from the spec: the type [IBoundingBox] is missing; [export]
    reads [left], [top], [width] and [height]. *)
Record t : Set := mk { left : Z; top : Z; width : Z; height : Z }.
End BoundingBox.

Module Region.
(** Modelled from the spec: the type [IRegion] is missing; [export] reads
    [tags] and [boundingBox]. *)
Record t : Set := mk { tags : list string; boundingBox : BoundingBox.t }.
End Region.

Module AssetMetadata.
(** Modelled from the spec: the type [IAssetMetadata] is missing; [export]
    reads [asset] and reads and pops [regions]. *)
Record t : Set := mk { asset : Asset.t; regions : list Region.t }.
End AssetMetadata.

(** One CSV record: [image,xmin,ymin,xmax,ymax,label]. *)
Module DataItem.
Record t : Set := mk {
  image : string; xmin : Z; ymin : Z; xmax : Z; ymax : Z; label : string
}.
End DataItem.

Module CsvExportProvider.

(** What one run of [export] does besides building the records. *)
Inductive ExportEffect : Set :=
| Save (m : AssetMetadata.t)
| AssetClicked (a : Asset.t)
| ToastError (message : string)
| WriteBinary (path : string).

(** The inner loop of the check: [for (const tag of reg.tags)].  The test
    does not read [tag]; the first tag of an exceeding region sets
    [skipAsset] and breaks. *)
Fixpoint checkTags (reg : Region.t) (assetProps : Size.t)
         (tags : list string) : bool :=
  match tags with
  | [] => false
  | _ :: rest =>
      let maxx := BoundingBox.left (Region.boundingBox reg)
                  + BoundingBox.width (Region.boundingBox reg) in
      let maxy := BoundingBox.top (Region.boundingBox reg)
                  + BoundingBox.height (Region.boundingBox reg) in
      let W := Size.width assetProps in
      let H := Size.height assetProps in
      if (maxx >? W) || (maxy >? H) then true
      else checkTags reg assetProps rest
  end.

(** The outer loop: [for (const reg of assetMetadata.regions)], left by
    [if (skipAsset) break].  The result is the final [skipAsset]. *)
Fixpoint checkRegions (assetProps : Size.t) (regions : list Region.t) : bool :=
  match regions with
  | [] => false
  | reg :: rest =>
      if checkTags reg assetProps (Region.tags reg) then true
      else checkRegions assetProps rest
  end.

(** [for (const ar of assetMetadata.regions) { assetMetadata.regions.pop() }]:
    the array iterator compares its index with the current length before
    each step, and every step removes the last element.  [fuel] bounds the
    number of steps. *)
Fixpoint popWhileIterating (fuel index : nat) (regions : list Region.t)
  : list Region.t :=
  match fuel with
  | O => regions
  | S fuel' =>
      if (index <? List.length regions)%nat
      then popWhileIterating fuel' (S index) (removelast regions)
      else regions
  end.

Definition popRegions (regions : list Region.t) : list Region.t :=
  popWhileIterating (List.length regions) 0 regions.

(** The body shared by both rejections: the regions are popped, the asset
    is marked [NotVisited], saved and selected in the side bar, and the
    message is shown. *)
Definition rejectAsset (err : string) (m : AssetMetadata.t)
  : AssetMetadata.t * list ExportEffect :=
  let m' := AssetMetadata.mk
              (Asset.set_state NotVisited (AssetMetadata.asset m))
              (popRegions (AssetMetadata.regions m)) in
  (m', [Save m'; AssetClicked (AssetMetadata.asset m'); ToastError err]).

(** [region.tags.forEach((tag) => { ... dataItems.push(dataItem) })] *)
Definition regionItems (image : string) (region : Region.t)
  : list DataItem.t :=
  map (fun tag =>
         DataItem.mk image
           (BoundingBox.left (Region.boundingBox region))
           (BoundingBox.top (Region.boundingBox region))
           (BoundingBox.left (Region.boundingBox region)
            + BoundingBox.width (Region.boundingBox region))
           (BoundingBox.top (Region.boundingBox region)
            + BoundingBox.height (Region.boundingBox region))
           tag)
      (Region.tags region).

(** [assetMetadata.regions.forEach((region) => ...)] *)
Definition assetItems (m : AssetMetadata.t) : list DataItem.t :=
  flat_map (regionItems (Asset.name (AssetMetadata.asset m)))
           (AssetMetadata.regions m).

Record Iteration : Set := mkIteration {
  metadata : AssetMetadata.t;
  items : list DataItem.t;
  effects : list ExportEffect
}.

Section ExportRun.

(** [HtmlFileReader.readAssetAttributes]: the measured size of an asset. *)
Variable readAssetAttributes : Asset.t -> Size.t.

(** [this.options.includeImages] *)
Variable includeImages : bool.

(** One turn of [for (const assetMetadata of results)]. *)
Definition exportAsset (assetMetadata : AssetMetadata.t) : Iteration :=
  let a := AssetMetadata.asset assetMetadata in
  let assetProps := readAssetAttributes a in
  if checkRegions assetProps (AssetMetadata.regions assetMetadata) then
    let '(m', effs) :=
      rejectAsset (String.append "Out Of bounds"%string (Asset.name a))
                  assetMetadata in
    mkIteration m' [] effs
  else if negb (Size.width (Asset.size a) =? Size.width assetProps)
          || negb (Size.height (Asset.size a) =? Size.height assetProps) then
    let '(m', effs) :=
      rejectAsset (String.append "Resized image "%string (Asset.name a))
                  assetMetadata in
    mkIteration m' [] effs
  else
    mkIteration assetMetadata (assetItems assetMetadata)
      (if includeImages
       then [WriteBinary (String.append "vott-csv-export/"%string (Asset.name a))]
       else []).

Record Exported : Set := mkExported {
  (** the metadata objects of [results], as the run leaves them *)
  assets : list AssetMetadata.t;
  (** [dataItems], the records handed to the CSV parser *)
  dataItems : list DataItem.t;
  log : list ExportEffect
}.

(** The loop of [export] up to the records; their serialisation and the
    write of the CSV file belong to json2csv and the storage provider. *)
Fixpoint export (results : list AssetMetadata.t) : Exported :=
  match results with
  | [] => mkExported [] [] []
  | m :: rest =>
      let it := exportAsset m in
      let r := export rest in
      mkExported (metadata it :: assets r) (items it ++ dataItems r)
                 (effects it ++ log r)
  end.

End ExportRun.

(** The bounding box of a region reaches beyond the measured size. *)
Definition exceeds (assetProps : Size.t) (reg : Region.t) : Prop :=
  BoundingBox.left (Region.boundingBox reg)
  + BoundingBox.width (Region.boundingBox reg) > Size.width assetProps \/
  BoundingBox.top (Region.boundingBox reg)
  + BoundingBox.height (Region.boundingBox reg) > Size.height assetProps.

(** A region with at least one tag exceeds the measured size. *)
Definition taggedOutOfBounds (assetProps : Size.t) (m : AssetMetadata.t)
  : Prop :=
  exists reg,
    In reg (AssetMetadata.regions m) /\ Region.tags reg <> [] /\
    exceeds assetProps reg.

(** Some region, tagged or not, exceeds the measured size. *)
Definition someOutOfBounds (assetProps : Size.t) (m : AssetMetadata.t)
  : Prop :=
  exists reg, In reg (AssetMetadata.regions m) /\ exceeds assetProps reg.

(** The recorded size is not the measured size. *)
Definition sizeMismatch (assetProps : Size.t) (m : AssetMetadata.t) : Prop :=
  Asset.size (AssetMetadata.asset m) <> assetProps.

End CsvExportProvider.

(* ================================================================== *)
(** ** Sample inputs                                                   *)
(* ================================================================== *)

(** Two-point mode, first corner placed at (5, 5), free corner at (25, 15):
    ctrl is pressed on [sampleWorld], the pointer goes to (5, 5) and clicks,
    then goes to (25, 15). *)
Definition armedWorld : World :=
  settle [KeyDown ctrlDown;
          PointerMove (pointerAt sampleWorld 1 5 5);
          PointerDown (pointerAt sampleWorld 1 5 5);
          PointerUp (pointerAt sampleWorld 1 5 5);
          PointerMove (pointerAt sampleWorld 1 25 15)]
         sampleWorld.

(** One-point mode in the middle of a drag from (10, 10) to (50, 40). *)
Definition draggingWorld : World :=
  settle [PointerMove (pointerAt sampleWorld 1 10 10);
          PointerDown (pointerAt sampleWorld 1 10 10);
          PointerMove (pointerAt sampleWorld 1 50 40)]
         sampleWorld.

(** One-point mode after a complete drag from (10, 10) to (50, 40). *)
Definition draggedWorld : World :=
  settle [PointerUp (pointerAt sampleWorld 1 50 40)] draggingWorld.

(** Two-point mode just entered: ctrl is pressed on [sampleWorld]. *)
Definition twoPointWorld : World := step sampleWorld (KeyDown ctrlDown).


(** One-point mode, the pointer resting at (10, 10). *)
Definition readyWorld : World :=
  settle [PointerMove (pointerAt sampleWorld 1 10 10)] sampleWorld.

(** One-point mode, the pointer resting at (5, 5). *)
Definition cornerWorld : World :=
  settle [PointerMove (pointerAt sampleWorld 1 5 5)] sampleWorld.

Module Samples.
Import CsvExportProvider.

Definition measure100 (_ : Asset.t) : Size.t := Size.mk 100 100.

Definition untaggedBig : Region.t :=
  Region.mk [] (BoundingBox.mk 0 0 200 200).

Definition taggedBig : Region.t :=
  Region.mk ["dog"%string] (BoundingBox.mk 50 50 80 20).

Definition taggedSmall : Region.t :=
  Region.mk ["cat"%string; "pet"%string] (BoundingBox.mk 1 2 10 20).

Definition image1 : Asset.t := Asset.mk "image_1.jpg" (Size.mk 100 100) Tagged.

Definition image2 : Asset.t := Asset.mk "image_2.jpg" (Size.mk 64 64) Tagged.

(** an untagged region larger than the image, and a tagged one inside it *)
Definition mixedAsset : AssetMetadata.t :=
  AssetMetadata.mk image1 [untaggedBig; taggedSmall].

(** two regions, the first of which is tagged and exceeds the image *)
Definition exceedingAsset : AssetMetadata.t :=
  AssetMetadata.mk image1 [taggedBig; taggedSmall].

(** recorded as 64 by 64, measured as 100 by 100 *)
Definition resizedAsset : AssetMetadata.t :=
  AssetMetadata.mk image2 [taggedSmall].

End Samples.

(* ================================================================== *)
(** ** Further observations on the selector                            *)
(* ================================================================== *)

(** The selection box is the normalised rectangle spanned by the two
    crosses: what [moveSelectionBox] leaves behind. *)
Definition boxSynced (s : RectSelector) : Prop :=
  RectElement.x (selectionBox s)
  = Z.min (CrossElement.x (crossA s)) (CrossElement.x (crossB s)) /\
  RectElement.y (selectionBox s)
  = Z.min (CrossElement.y (crossA s)) (CrossElement.y (crossB s)) /\
  RectElement.width (selectionBox s)
  = Z.abs (CrossElement.x (crossA s) - CrossElement.x (crossB s)) /\
  RectElement.height (selectionBox s)
  = Z.abs (CrossElement.y (crossA s) - CrossElement.y (crossB s)).

(** The RECT region that has the geometry of a rectangle element. *)
Definition boxRegion (r : RectElement.t) : RegionData.t :=
  RegionData.mk RegionData.Rect (RectElement.x r) (RectElement.y r)
                (RectElement.width r) (RectElement.height r).

(** The RECT region spanned by two corner points. *)
Definition spanRegion (a b : Point2D.t) : RegionData.t :=
  RegionData.mk RegionData.Rect
    (Z.min (Point2D.x a) (Point2D.x b)) (Z.min (Point2D.y a) (Point2D.y b))
    (Z.abs (Point2D.x a - Point2D.x b)) (Z.abs (Point2D.y a - Point2D.y b)).

(** Inputs other than key events. *)
Definition keyFree (i : Input) : bool :=
  match i with
  | KeyDown _ | KeyUp _ => false
  | _ => true
  end.

(** The capture call a frame body makes in one-point mode. *)
Definition captureCallOf (cb : FrameCallback) : list Effect :=
  match cb with
  | DownFrame e => [SetPointerCapture (pointerId e)]
  | UpFrame e => [ReleasePointerCapture (pointerId e)]
  | _ => []
  end.

Definition boolToNat (b : bool) : nat := if b then 1%nat else 0%nat.

(** What a frame in two-point mode keeps: no capture request; with both
    hooks, as many new begins as new ends, up to the capture that is
    running before or after. *)
Definition twoPointKept (w w' : World) : Prop :=
  isTwoPoints (selector w') = true /\
  captureCalls (trace w') = captureCalls (trace w) /\
  (has_onSelectionBegin (callbacks (selector w)) = true ->
   has_onSelectionEnd (callbacks (selector w)) = true ->
   (selectionBegins (trace w') + List.length (selectionEnds (trace w))
    + boolToNat (capturingState (selector w))
    = selectionBegins (trace w) + List.length (selectionEnds (trace w'))
      + boolToNat (capturingState (selector w')))%nat).

(* ================================================================== *)
(** ** CSV export: bookkeeping of a run and the name of the file       *)
(* ================================================================== *)

Module CsvRun.
Import CsvExportProvider.

(** The test [export] applies to an asset before it emits its records:
    no tagged region out of bounds and the recorded size as measured. *)
Definition accepted (assetProps : Size.t) (m : AssetMetadata.t) : bool :=
  negb (checkRegions assetProps (AssetMetadata.regions m))
  && (Size.width (Asset.size (AssetMetadata.asset m))
      =? Size.width assetProps)
  && (Size.height (Asset.size (AssetMetadata.asset m))
      =? Size.height assetProps).

(** The paths handed to [storageProvider.writeBinary], oldest first. *)
Fixpoint binaryWrites (l : list ExportEffect) : list string :=
  match l with
  | [] => []
  | WriteBinary path :: l' => path :: binaryWrites l'
  | _ :: l' => binaryWrites l'
  end.

(** The messages handed to [toast.error], oldest first. *)
Fixpoint toasts (l : list ExportEffect) : list string :=
  match l with
  | [] => []
  | ToastError message :: l' => message :: toasts l'
  | _ :: l' => toasts l'
  end.

(** The message [export] shows for an asset it rejects: the check of the
    regions comes first, the check of the size second. *)
Definition rejectionMessage (assetProps : Size.t) (m : AssetMetadata.t)
  : string :=
  if checkRegions assetProps (AssetMetadata.regions m)
  then String.append "Out Of bounds"%string
                     (Asset.name (AssetMetadata.asset m))
  else String.append "Resized image "%string
                     (Asset.name (AssetMetadata.asset m)).

(** The path [export] writes the image of an asset to. *)
Definition imagePath (m : AssetMetadata.t) : string :=
  String.append "vott-csv-export/"%string
                (Asset.name (AssetMetadata.asset m)).

(** A JavaScript string as its UTF-16 code units. *)
Definition JsString : Set := list N.

Definition codeUnits (s : string) : JsString :=
  map Ascii.N_of_ascii (list_ascii_of_string s).

(** The code units the class [\s] of a regular expression matches: the
    white space and the line terminators of ECMAScript. *)
Definition isWhiteSpace (c : N) : bool :=
  ((9 <=? c) && (c <=? 13) || (c =? 32) || (c =? 160) || (c =? 5760)
   || (8192 <=? c) && (c <=? 8202) || (c =? 8232) || (c =? 8233)
   || (c =? 8239) || (c =? 8287) || (c =? 12288) || (c =? 65279))%N.

(** [name.replace(/\s/g, "-")] *)
Definition replaceWhiteSpace (name : JsString) : JsString :=
  map (fun c => if isWhiteSpace c then 45%N else c) name.

(** The name of the CSV file:
    [`vott-csv-export/${this.project.name.replace(/\s/g, "-")}-export.csv`] *)
Definition exportFileName (projectName : JsString) : JsString :=
  codeUnits "vott-csv-export/" ++ replaceWhiteSpace projectName
  ++ codeUnits "-export.csv".
End CsvRun.

(* ================================================================== *)
(** ** Editor toolbar (react/components/pages/editorPage/editorToolbar) *)
(* ================================================================== *)

Module EditorToolbar.
Section Toolbar.

(** The enums [ToolbarItemName] and [ToolbarItemType] are declared outside
    the sources verified here; they are taken as they are used: compared
    with [===] and, for a name, tested for truthiness. *)
Variable ToolbarItemName : Type.
Variable ToolbarItemType : Type.
Variable name_eqb : ToolbarItemName -> ToolbarItemName -> bool.
Variable type_eqb : ToolbarItemType -> ToolbarItemType -> bool.
Variable truthy : ToolbarItemName -> bool.
(** [ToolbarItemType.State] *)
Variable StateType : ToolbarItemType.

(** [IToolbarItemRegistration], as far as the toolbar reads its [config]. *)
Record Registration : Type := mkRegistration {
  config_name : ToolbarItemName;
  config_type : ToolbarItemType
}.

(** [IEditorToolbarState] *)
Record ToolbarState : Type := mkToolbarState {
  selectedItem : ToolbarItemName
}.

(** [EditorToolbar.isComponentActive] *)
Definition isComponentActive (selected : ToolbarItemName)
           (componentRegistration : Registration) : bool :=
  if truthy selected
  then name_eqb selected (config_name componentRegistration)
       && type_eqb (config_type componentRegistration) StateType
  else false.

(** [EditorToolbar.onToolbarItemSelected]: [setState] stores the name of
    the item, then its callback hands the item to
    [props.onToolbarItemSelected]; the second component lists the items
    handed over so far, oldest first. *)
Definition onToolbarItemSelected (toolbarItem : Registration)
           (st : ToolbarState * list Registration)
  : ToolbarState * list Registration :=
  (mkToolbarState (config_name toolbarItem), snd st ++ [toolbarItem]).

End Toolbar.

Arguments mkRegistration {ToolbarItemName ToolbarItemType} _ _.
Arguments config_name {ToolbarItemName ToolbarItemType} _.
Arguments config_type {ToolbarItemName ToolbarItemType} _.
Arguments mkToolbarState {ToolbarItemName} _.
Arguments selectedItem {ToolbarItemName} _.
Arguments isComponentActive {ToolbarItemName ToolbarItemType} _ _ _ _ _ _.
Arguments onToolbarItemSelected {ToolbarItemName ToolbarItemType} _ _.
End EditorToolbar.

(** Arithmetic is left to [lia]; [simpl] does not unfold it. *)
#[local] Arguments Z.add : simpl never.
#[local] Arguments Z.sub : simpl never.
#[local] Arguments Z.opp : simpl never.
#[local] Arguments Z.mul : simpl never.
#[local] Arguments Z.abs : simpl never.
#[local] Arguments Z.min : simpl never.
#[local] Arguments Z.max : simpl never.
#[local] Arguments Z.sgn : simpl never.

(* ================================================================== *)
(** * Geometry of the commit                                           *)
(* ================================================================== *)

Lemma BuildRectRegionData_nonneg (x y w h : Z) :
  0 <= w -> 0 <= h ->
  RegionData.BuildRectRegionData x y w h = RegionData.mk RegionData.Rect x y w h.
Proof.
  intros Hw Hh. unfold RegionData.BuildRectRegionData.
  f_equal; lia.
Qed.

Lemma commitRegion_eq (a b : CrossElement.t) :
  commitRegion a b =
  RegionData.mk RegionData.Rect
    (Z.min (CrossElement.x a) (CrossElement.x b))
    (Z.min (CrossElement.y a) (CrossElement.y b))
    (Z.abs (CrossElement.x a - CrossElement.x b))
    (Z.abs (CrossElement.y a - CrossElement.y b)).
Proof.
  unfold commitRegion. apply BuildRectRegionData_nonneg; lia.
Qed.

Lemma moveSelectionBox_eq (box : RectElement.t) (pa pb : Point2D.t) :
  moveSelectionBox box pa pb =
  RectElement.mk (Z.min (Point2D.x pa) (Point2D.x pb))
                 (Z.min (Point2D.y pa) (Point2D.y pb))
                 (Z.abs (Point2D.x pa - Point2D.x pb))
                 (Z.abs (Point2D.y pa - Point2D.y pb))
                 (RectElement.isVisible box).
Proof.
  unfold moveSelectionBox, RectElement.resize, RectElement.move; simpl.
  f_equal.
  - destruct (Z.ltb_spec (Point2D.x pa) (Point2D.x pb)); lia.
  - destruct (Z.ltb_spec (Point2D.y pa) (Point2D.y pb)); lia.
Qed.

Lemma boundToRect_inRect (r : Rect.t) (p : Point2D.t) :
  inRect r p -> boundToRect r p = p.
Proof.
  destruct p as [px py]. unfold inRect, boundToRect; simpl.
  intros [Hx Hy]. f_equal; lia.
Qed.

Lemma boundToRect_bounded (r : Rect.t) (p : Point2D.t) :
  0 <= Rect.width r -> 0 <= Rect.height r -> inRect r (boundToRect r p).
Proof.
  unfold inRect, boundToRect; simpl. lia.
Qed.

(** C2: the region committed from the corners [(a, b)] is the region
    committed from [(b, a)]; its origin is the componentwise minimum of the
    two corners, its width and height are the componentwise absolute
    differences and are not negative; from twice the same corner the region
    has width and height zero.  The selection box drawn during the drag is
    symmetric in the same way. *)
Theorem C2_commit_symmetric_normalised :
  forall (a b : CrossElement.t),
    commitRegion a b = commitRegion b a /\
    RegionData.type (commitRegion a b) = RegionData.Rect /\
    RegionData.x (commitRegion a b)
      = Z.min (CrossElement.x a) (CrossElement.x b) /\
    RegionData.y (commitRegion a b)
      = Z.min (CrossElement.y a) (CrossElement.y b) /\
    RegionData.width (commitRegion a b)
      = Z.abs (CrossElement.x a - CrossElement.x b) /\
    RegionData.height (commitRegion a b)
      = Z.abs (CrossElement.y a - CrossElement.y b) /\
    0 <= RegionData.width (commitRegion a b) /\
    0 <= RegionData.height (commitRegion a b) /\
    RegionData.width (commitRegion a a) = 0 /\
    RegionData.height (commitRegion a a) = 0 /\
    (forall box : RectElement.t,
        moveSelectionBox box (CrossElement.point a) (CrossElement.point b)
        = moveSelectionBox box (CrossElement.point b) (CrossElement.point a)).
Proof.
  intros a b. rewrite !commitRegion_eq. simpl.
  repeat split; try lia.
  - f_equal; lia.
  - intros box. rewrite !moveSelectionBox_eq. f_equal; lia.
Qed.

(* ================================================================== *)
(** * Animation frames                                                 *)
(* ================================================================== *)

(** The frame bodies touch the selector and the trace only. *)
Ltac split_ifs :=
  repeat match goal with
         | |- context [if ?b then _ else _] => destruct b eqn:?; simpl
         end.

Lemma runFrameCallback_host (w : World) (cb : FrameCallback) :
  frameRequests (runFrameCallback w cb) = frameRequests w /\
  clientLeft (runFrameCallback w cb) = clientLeft w /\
  clientTop (runFrameCallback w cb) = clientTop w.
Proof.
  destruct cb as [|e|e|e|e]; simpl;
    unfold onPointerEnter_frame, onPointerLeave_frame, onPointerDown_frame,
      onPointerUp_frame, onPointerMove_frame, trackCrossB; simpl;
    split_ifs; auto.
Qed.

Lemma fold_frames_host (cbs : list FrameCallback) :
  forall w,
    frameRequests (fold_left runFrameCallback cbs w) = frameRequests w /\
    clientLeft (fold_left runFrameCallback cbs w) = clientLeft w /\
    clientTop (fold_left runFrameCallback cbs w) = clientTop w.
Proof.
  induction cbs as [|cb cbs IH]; intros w; simpl.
  - auto.
  - destruct (IH (runFrameCallback w cb)) as (Hq & Hl & Ht).
    destruct (runFrameCallback_host w cb) as (Hq' & Hl' & Ht').
    repeat split; congruence.
Qed.

Lemma clearFrameRequests_idle (w : World) :
  frameRequests w = [] -> clearFrameRequests w = w.
Proof.
  destruct w as [s l t q tr]; simpl. intros ->. reflexivity.
Qed.

Lemma animationFrame_idle (w : World) :
  frameRequests w = [] -> animationFrame w = w.
Proof.
  intros H. unfold animationFrame. rewrite H. simpl.
  now apply clearFrameRequests_idle.
Qed.

Lemma animationFrame_requests (w : World) :
  frameRequests (animationFrame w) = [].
Proof.
  unfold animationFrame.
  destruct (fold_frames_host (frameRequests w) (clearFrameRequests w))
    as (Hq & _). rewrite Hq. reflexivity.
Qed.

Lemma animationFrame_twice (w : World) :
  animationFrame (animationFrame w) = animationFrame w.
Proof.
  apply animationFrame_idle, animationFrame_requests.
Qed.

(** A request made before the frame runs after everything requested
    earlier. *)
Lemma animationFrame_request (cb : FrameCallback) (w : World) :
  animationFrame (requestAnimationFrame cb w)
  = runFrameCallback (animationFrame w) cb.
Proof.
  unfold animationFrame, requestAnimationFrame; simpl.
  rewrite fold_left_app. reflexivity.
Qed.

(** With pointer events only, the frames may fall anywhere between the
    events: after the closing frame the bodies have run once each, in the
    order of the events. *)
Lemma settle_pointer_inputs (ins : list Input) :
  forall w,
    forallb pointerOrFrame ins = true ->
    settle ins w
    = fold_left runFrameCallback (flat_map frameCallbackOf ins)
                (animationFrame w).
Proof.
  unfold settle, run.
  induction ins as [|i ins IH]; intros w Hins; simpl.
  - reflexivity.
  - simpl in Hins. apply andb_prop in Hins. destruct Hins as [Hi Hins].
    rewrite (IH _ Hins). rewrite fold_left_app.
    destruct i; simpl in Hi; try discriminate; simpl;
      try (unfold onPointerEnter, onPointerLeave, onPointerDown, onPointerUp,
           onPointerMove; now rewrite animationFrame_request).
    now rewrite animationFrame_twice.
Qed.

Lemma localPoint_pointerAt (w w' : World) (id x y : Z) :
  clientLeft w' = clientLeft w -> clientTop w' = clientTop w ->
  localPoint (pointerAt w id x y) w' = Point2D.mk x y.
Proof.
  intros Hl Ht. unfold localPoint, pointerAt; simpl.
  rewrite Hl, Ht. f_equal; lia.
Qed.

(* ================================================================== *)
(** * Traces                                                           *)
(* ================================================================== *)

Lemma selectionEnds_app (t1 t2 : list Effect) :
  selectionEnds (t1 ++ t2) = selectionEnds t1 ++ selectionEnds t2.
Proof.
  induction t1 as [|eff t1 IH]; simpl; [reflexivity|].
  destruct eff; simpl; now rewrite IH.
Qed.

Lemma captureCalls_app (t1 t2 : list Effect) :
  captureCalls (t1 ++ t2) = captureCalls t1 ++ captureCalls t2.
Proof.
  unfold captureCalls. apply filter_app.
Qed.

(** Symbolic execution of frame bodies on a world whose mode flags are
    known. *)
Ltac unfold_frames :=
  unfold onPointerEnter_frame, onPointerLeave_frame, onPointerDown_frame,
    onPointerUp_frame, onPointerMove_frame, trackCrossB; simpl.

(** On a world given by its constructors, with every flag known, the frame
    bodies are evaluated innermost first; arithmetic, traces and the
    region of the commit are left as they are. *)
Ltac run_frames :=
  cbv -[Z.add Z.sub Z.opp Z.mul Z.abs Z.min Z.max Z.sgn Z.ltb
        Z.le Z.lt Z.ge Z.gt app selectionEnds selectionBegins captureCalls
        commitRegion moveSelectionBox].

(* ================================================================== *)
(** * One-point mode: press, drag, release                             *)
(* ================================================================== *)

(** While no capture is running in one-point mode, a pointer-move puts
    [crossA] under the pointer. *)
Lemma onPointerMove_frame_places_crossA (w : World) (id x y : Z) :
  isTwoPoints (selector w) = false ->
  capturingState (selector w) = false ->
  inRect (boundRect (selector w)) (Point2D.mk x y) ->
  CrossElement.point
    (crossA (selector (onPointerMove_frame (pointerAt w id x y) w)))
  = Point2D.mk x y.
Proof.
  intros H2 Hc Hin.
  destruct w as [s l t q tr].
  destruct s as [[W H] cbk vis ca cb sb mk cap two md].
  cbn in H2, Hc, Hin. subst. unfold inRect in Hin; simpl in Hin.
  run_frames. f_equal; lia.
Qed.




(* ================================================================== *)
(** * Two-point mode                                                   *)
(* ================================================================== *)

(** C3, as the code has it: in two-point mode the first corner is where a
    pointer-move left [crossA], and the second corner is where a
    pointer-move left [crossB]; the pointer-up bodies read the position of
    their event only to place the crosses after the commit.  With a
    pointer-move to each click position before the click, ctrl-down (while
    not capturing), click at (5, 5), click at (25, 15) hands the RECT
    region at (5, 5) of size 20 by 10 to [onSelectionEnd]; after the commit
    both crosses are at (25, 15) and two-point mode is still on. *)
Theorem C3_two_clicks_commit_region :
  forall (w : World) (id : Z) (ins : list Input),
    frameRequests w = [] ->
    capturingState (selector w) = false ->
    selectionModificator (selector w) = RECT ->
    has_onSelectionEnd (callbacks (selector w)) = true ->
    25 <= Rect.width (boundRect (selector w)) ->
    15 <= Rect.height (boundRect (selector w)) ->
    forallb pointerOrFrame ins = true ->
    flat_map frameCallbackOf ins
    = [MoveFrame (pointerAt w id 5 5);
       DownFrame (pointerAt w id 5 5);
       UpFrame (pointerAt w id 5 5);
       MoveFrame (pointerAt w id 25 15);
       DownFrame (pointerAt w id 25 15);
       UpFrame (pointerAt w id 25 15)] ->
    let w' := settle (KeyDown ctrlDown :: ins) w in
    selectionEnds (trace w')
    = selectionEnds (trace w) ++ [RegionData.mk RegionData.Rect 5 5 20 10] /\
    CrossElement.point (crossA (selector w')) = Point2D.mk 25 15 /\
    CrossElement.point (crossB (selector w')) = Point2D.mk 25 15 /\
    isTwoPoints (selector w') = true /\
    capturingState (selector w') = false.
Proof.
  intros w id ins Hq Hc Hm He Hw Hh Hins Hcbs w'. subst w'.
  change (settle (KeyDown ctrlDown :: ins) w)
    with (settle ins (onKeyDown ctrlDown w)).
  assert (Hq' : frameRequests (onKeyDown ctrlDown w) = []).
  { unfold onKeyDown; simpl. rewrite Hc; simpl. exact Hq. }
  rewrite (settle_pointer_inputs ins _ Hins), Hcbs, (animationFrame_idle _ Hq').
  clear Hcbs Hins Hq'.
  destruct w as [s l t q tr].
  destruct s as [[W H] [hb he] vis ca cb sb mk cap two md].
  cbn in Hq, Hc, Hm, He, Hw, Hh. subst.
  destruct hb; run_frames;
    rewrite !selectionEnds_app; simpl; rewrite ?app_nil_r;
    rewrite commitRegion_eq; simpl;
    (repeat split; [do 2 f_equal; f_equal; lia | f_equal; lia | f_equal; lia]).
Qed.

Lemma C3_two_clicks_commit_region_witness :
  let w' :=
    settle [KeyDown ctrlDown;
            PointerMove (pointerAt sampleWorld 1 5 5);
            PointerDown (pointerAt sampleWorld 1 5 5);
            PointerUp (pointerAt sampleWorld 1 5 5);
            AnimationFrame;
            PointerMove (pointerAt sampleWorld 1 25 15);
            PointerDown (pointerAt sampleWorld 1 25 15);
            PointerUp (pointerAt sampleWorld 1 25 15)]
           sampleWorld in
  selectionEnds (trace w')
  = selectionEnds (trace sampleWorld)
    ++ [RegionData.mk RegionData.Rect 5 5 20 10] /\
  CrossElement.point (crossA (selector w')) = Point2D.mk 25 15 /\
  CrossElement.point (crossB (selector w')) = Point2D.mk 25 15 /\
  isTwoPoints (selector w') = true /\
  capturingState (selector w') = false.
Proof.
  apply (C3_two_clicks_commit_region sampleWorld 1
           [PointerMove (pointerAt sampleWorld 1 5 5);
            PointerDown (pointerAt sampleWorld 1 5 5);
            PointerUp (pointerAt sampleWorld 1 5 5);
            AnimationFrame;
            PointerMove (pointerAt sampleWorld 1 25 15);
            PointerDown (pointerAt sampleWorld 1 25 15);
            PointerUp (pointerAt sampleWorld 1 25 15)]);
    try reflexivity; vm_compute; discriminate.
Defined.

(** C3, as stated, fails: with the pointer resting at (5, 5), ctrl-down,
    click at (5, 5), click at (25, 15) without a pointer-move in between
    commits the empty region at (5, 5): the second pointer-up does not move
    [crossB] to its event before it reads the two crosses. *)
Lemma C3_counterexample :
  let w' :=
    settle [KeyDown ctrlDown;
            PointerDown (pointerAt cornerWorld 1 5 5);
            PointerUp (pointerAt cornerWorld 1 5 5);
            PointerDown (pointerAt cornerWorld 1 25 15);
            PointerUp (pointerAt cornerWorld 1 25 15)]
           cornerWorld in
  capturingState (selector cornerWorld) = false /\
  selectionEnds (trace w') = [RegionData.mk RegionData.Rect 5 5 0 0] /\
  RegionData.mk RegionData.Rect 5 5 0 0
  <> RegionData.mk RegionData.Rect 5 5 20 10.
Proof.
  vm_compute. repeat split; try reflexivity; discriminate.
Qed.

(** C4, as the code has it: a key-up without ctrl, received in two-point
    mode, leaves two-point mode and resets [capturingState] without calling
    any hook; it moves [crossA] onto [crossB]: [crossA] takes the position
    of [crossB] clamped to the bound rectangle, which is the position of
    [crossB] itself whenever [crossB] lies within the bound rectangle, and
    [crossB] stays where it is; it hides [crossB], the selection box and
    the mask. *)
Theorem C4_ctrl_up_cancels :
  forall (w : World) (e : KeyboardEvent),
    ctrlKey e = false ->
    isTwoPoints (selector w) = true ->
    let w' := step w (KeyUp e) in
    isTwoPoints (selector w') = false /\
    capturingState (selector w') = false /\
    trace w' = trace w /\
    frameRequests w' = frameRequests w /\
    CrossElement.point (crossA (selector w'))
    = boundToRect (boundRect (selector w))
                  (CrossElement.point (crossB (selector w))) /\
    (inRect (boundRect (selector w))
            (CrossElement.point (crossB (selector w))) ->
     CrossElement.point (crossA (selector w'))
     = CrossElement.point (crossB (selector w))) /\
    CrossElement.point (crossB (selector w'))
    = CrossElement.point (crossB (selector w)) /\
    CrossElement.isVisible (crossB (selector w')) = false /\
    RectElement.isVisible (selectionBox (selector w')) = false /\
    MaskElement.isVisible (mask (selector w')) = false.
Proof.
  intros w e Hctrl H2 w'. subst w'.
  destruct w as [s l t q tr].
  destruct s as [br cbk vis ca [bx by_ bv] sb mk cap two md].
  cbn in H2. subst.
  destruct e as [sh ct]. cbn in Hctrl. subst ct.
  destruct sh;
    (repeat split; try reflexivity);
    intros Hin; unfold inRect in Hin; simpl in Hin;
    unfold CrossElement.point; simpl; f_equal; lia.
Qed.

Lemma C4_ctrl_up_cancels_witness :
  let w' := step armedWorld (KeyUp ctrlUp) in
  isTwoPoints (selector w') = false /\
  capturingState (selector w') = false /\
  trace w' = trace armedWorld /\
  frameRequests w' = frameRequests armedWorld /\
  CrossElement.point (crossA (selector w'))
  = boundToRect (boundRect (selector armedWorld))
                (CrossElement.point (crossB (selector armedWorld))) /\
  (inRect (boundRect (selector armedWorld))
          (CrossElement.point (crossB (selector armedWorld))) ->
   CrossElement.point (crossA (selector w'))
   = CrossElement.point (crossB (selector armedWorld))) /\
  CrossElement.point (crossB (selector w'))
  = CrossElement.point (crossB (selector armedWorld)) /\
  CrossElement.isVisible (crossB (selector w')) = false /\
  RectElement.isVisible (selectionBox (selector w')) = false /\
  MaskElement.isVisible (mask (selector w')) = false.
Proof.
  apply (C4_ctrl_up_cancels armedWorld ctrlUp); reflexivity.
Defined.

(** C4, as stated, fails: in the middle of a two-point placement with
    [crossA] at (5, 5) and [crossB] at (25, 15), ctrl-up leaves [crossB] at
    (25, 15) and moves [crossA] there. *)
Lemma C4_counterexample :
  let w' := step armedWorld (KeyUp ctrlUp) in
  isTwoPoints (selector armedWorld) = true /\
  capturingState (selector armedWorld) = true /\
  CrossElement.point (crossA (selector armedWorld)) = Point2D.mk 5 5 /\
  CrossElement.point (crossB (selector w')) = Point2D.mk 25 15 /\
  CrossElement.point (crossA (selector w')) = Point2D.mk 25 15 /\
  CrossElement.point (crossB (selector w'))
  <> CrossElement.point (crossA (selector armedWorld)).
Proof.
  vm_compute. repeat split; try reflexivity; discriminate.
Qed.

(* ================================================================== *)
(** * Pointer-up without a capture, hide() during a capture            *)
(* ================================================================== *)

(** In one-point mode the pointer-up body does not read [capturingState]:
    it releases the capture and commits whatever the two crosses span. *)
Lemma onPointerUp_frame_one_point (e : PointerEvent) (w : World) :
  isTwoPoints (selector w) = false ->
  trace (onPointerUp_frame e w)
  = trace w
    ++ ReleasePointerCapture (pointerId e)
       :: (if has_onSelectionEnd (callbacks (selector w))
           then [OnSelectionEnd (commitRegion (crossA (selector w))
                                              (crossB (selector w)))]
           else []) /\
  capturingState (selector (onPointerUp_frame e w)) = false.
Proof.
  intros H2.
  destruct w as [s l t q tr].
  destruct s as [br [hb he] vis [ax ay av] [bx by_ bv] sb mk cap two md].
  cbn in H2. subst.
  unfold onPointerUp_frame; simpl.
  destruct he; simpl; rewrite <- ?app_assoc; simpl;
    rewrite ?commitRegion_eq; split; reflexivity.
Qed.

(** C5: the code at a pointer-up that no pointer-down precedes.  After a
    complete drag from (10, 10) to (50, 40) the selector is in one-point
    mode and not capturing; one more pointer-up calls
    [releasePointerCapture] and hands the region of the finished drag to
    [onSelectionEnd] a second time. *)
Theorem C5_stray_pointer_up_commits :
  isTwoPoints (selector draggedWorld) = false /\
  capturingState (selector draggedWorld) = false /\
  selectionEnds (trace draggedWorld)
  = [RegionData.mk RegionData.Rect 10 10 40 30] /\
  trace (settle [PointerUp (pointerAt draggedWorld 1 70 70)] draggedWorld)
  = trace draggedWorld
    ++ [ReleasePointerCapture 1;
        OnSelectionEnd (RegionData.mk RegionData.Rect 10 10 40 30)].
Proof.
  vm_compute. repeat split; reflexivity.
Qed.

Lemma settle_show_down (e : PointerEvent) (w : World) :
  frameRequests w = [] ->
  settle [CallShow; PointerDown e] w = onPointerDown_frame e (upd show w).
Proof.
  intros Hq. unfold settle, run; simpl. unfold onPointerDown.
  rewrite animationFrame_request, animationFrame_idle by exact Hq.
  reflexivity.
Qed.

(** C6, as the code has it: [hide()] hides the node of the selector,
    [crossA], [crossB] and the mask; it writes neither [capturingState],
    which stays [true], nor the selection box.  In one-point mode a
    following [show()] and pointer-down start a capture anew: the capture
    is requested, [crossB] is on [crossA], the selection box is empty at
    [crossA], and mask, [crossB] and selection box are shown. *)
Theorem C6_hide_during_capture :
  forall (w : World) (e : PointerEvent),
    capturingState (selector w) = true ->
    let w1 := step w CallHide in
    (isVisible (selector w1) = false /\
     CrossElement.isVisible (crossA (selector w1)) = false /\
     CrossElement.isVisible (crossB (selector w1)) = false /\
     MaskElement.isVisible (mask (selector w1)) = false /\
     capturingState (selector w1) = true /\
     selectionBox (selector w1) = selectionBox (selector w) /\
     trace w1 = trace w) /\
    (isTwoPoints (selector w) = false ->
     frameRequests w = [] ->
     inRect (boundRect (selector w))
            (CrossElement.point (crossA (selector w))) ->
     let w2 := settle [CallShow; PointerDown e] w1 in
     capturingState (selector w2) = true /\
     captureCalls (trace w2)
     = captureCalls (trace w) ++ [SetPointerCapture (pointerId e)] /\
     CrossElement.point (crossA (selector w2))
     = CrossElement.point (crossA (selector w)) /\
     CrossElement.point (crossB (selector w2))
     = CrossElement.point (crossA (selector w)) /\
     selectionBox (selector w2)
     = RectElement.mk (CrossElement.x (crossA (selector w)))
                      (CrossElement.y (crossA (selector w))) 0 0 true /\
     isVisible (selector w2) = true /\
     CrossElement.isVisible (crossA (selector w2)) = true /\
     CrossElement.isVisible (crossB (selector w2)) = true /\
     MaskElement.isVisible (mask (selector w2)) = true).
Proof.
  intros w e Hc w1. subst w1. split.
  - destruct w as [s l t q tr].
    destruct s as [br cbk vis ca cb sb mk cap two md].
    cbn in Hc. subst. repeat split; reflexivity.
  - intros H2 Hq Hin w2. subst w2.
    rewrite (settle_show_down e (step w CallHide) Hq).
    destruct w as [s l t q tr].
    destruct s as [[W H] [hb he] vis [ax ay av] cb sb mk cap two md].
    cbn in Hc, H2, Hq, Hin. subst.
    unfold inRect in Hin; simpl in Hin.
    destruct hb; run_frames;
      rewrite ?captureCalls_app; simpl; rewrite ?app_nil_r;
      replace (Z.max 0 (Z.min W ax)) with ax by lia;
      replace (Z.max 0 (Z.min H ay)) with ay by lia;
      rewrite !Z.ltb_irrefl, !Z.sub_diag;
      repeat split; reflexivity.
Qed.

Lemma C6_hide_during_capture_witness :
  capturingState (selector draggingWorld) = true /\
  capturingState (selector (step draggingWorld CallHide)) = true /\
  capturingState
    (selector (settle [CallShow; PointerDown (pointerAt draggingWorld 1 20 20)]
                      (step draggingWorld CallHide))) = true.
Proof.
  split; [reflexivity|].
  destruct (C6_hide_during_capture draggingWorld
              (pointerAt draggingWorld 1 20 20) eq_refl) as [H1 H2].
  split.
  - apply H1.
  - apply H2; try reflexivity.
    vm_compute. repeat split; discriminate.
Defined.

(** C6, as stated, fails: [hide()] in the middle of a drag leaves
    [capturingState] set. *)
Lemma C6_counterexample :
  capturingState (selector draggingWorld) = true /\
  capturingState (selector (step draggingWorld CallHide)) = true /\
  capturingState (selector (step draggingWorld CallHide)) <> false.
Proof.
  vm_compute. repeat split; try reflexivity; discriminate.
Qed.

(* ================================================================== *)
(** * Pointer capture                                                  *)
(* ================================================================== *)

(** No frame body writes [isTwoPoints]. *)
Lemma runFrameCallback_mode (w : World) (cb : FrameCallback) :
  isTwoPoints (selector (runFrameCallback w cb)) = isTwoPoints (selector w).
Proof.
  destruct w as [s l t q tr].
  destruct s as [br cbk vis ca cb' sb mk cap two md].
  destruct cb as [|e|e|e|e]; simpl; unfold_frames;
    destruct two, cap; simpl; split_ifs; reflexivity.
Qed.

(** In one-point mode a pointer-move calls no hook and makes no capture
    request. *)
Lemma onPointerMove_frame_trace (e : PointerEvent) (w : World) :
  trace (onPointerMove_frame e w) = trace w.
Proof.
  unfold onPointerMove_frame, trackCrossB; simpl.
  destruct (isTwoPoints (selector w)), (capturingState (selector w));
    reflexivity.
Qed.

Lemma fold_moves (moves : list PointerEvent) :
  forall w,
    trace (fold_left runFrameCallback (map MoveFrame moves) w) = trace w /\
    isTwoPoints (selector (fold_left runFrameCallback (map MoveFrame moves) w))
    = isTwoPoints (selector w).
Proof.
  induction moves as [|e moves IH]; intros w; simpl.
  - split; reflexivity.
  - destruct (IH (onPointerMove_frame e w)) as [Ht Hm].
    rewrite Ht, Hm, onPointerMove_frame_trace.
    split; [reflexivity|].
    apply (runFrameCallback_mode w (MoveFrame e)).
Qed.

Lemma onPointerDown_frame_one_point (e : PointerEvent) (w : World) :
  isTwoPoints (selector w) = false ->
  trace (onPointerDown_frame e w)
  = trace w
    ++ SetPointerCapture (pointerId e)
       :: (if has_onSelectionBegin (callbacks (selector w))
           then [OnSelectionBegin] else []) /\
  capturingState (selector (onPointerDown_frame e w)) = true.
Proof.
  intros H2. unfold onPointerDown_frame. rewrite H2; simpl.
  destruct (has_onSelectionBegin (callbacks (selector w))); simpl.
  - rewrite <- app_assoc. split; reflexivity.
  - split; reflexivity.
Qed.

(** C7: in one-point mode, over pointer-down, any number of pointer-moves,
    pointer-up of one pointer, with the animation frames anywhere between
    the events, the selector calls [setPointerCapture] once, on the down,
    and [releasePointerCapture] once, on the up, in this order and for the
    same pointer. *)
Theorem C7_capture_released_once :
  forall (w : World) (ins : list Input)
         (e_down : PointerEvent) (moves : list PointerEvent)
         (e_up : PointerEvent),
    frameRequests w = [] ->
    isTwoPoints (selector w) = false ->
    pointerId e_up = pointerId e_down ->
    forallb pointerOrFrame ins = true ->
    flat_map frameCallbackOf ins
    = DownFrame e_down :: map MoveFrame moves ++ [UpFrame e_up] ->
    captureCalls (trace (settle ins w))
    = captureCalls (trace w)
      ++ [SetPointerCapture (pointerId e_down);
          ReleasePointerCapture (pointerId e_down)].
Proof.
  intros w ins e_down moves e_up Hq H2 Hid Hins Hcbs.
  rewrite (settle_pointer_inputs ins w Hins), Hcbs, (animationFrame_idle w Hq).
  simpl. rewrite fold_left_app. simpl.
  set (w1 := onPointerDown_frame e_down w).
  destruct (onPointerDown_frame_one_point e_down w H2) as [Ht1 _].
  assert (H21 : isTwoPoints (selector w1) = false).
  { exact (eq_trans (runFrameCallback_mode w (DownFrame e_down)) H2). }
  destruct (fold_moves moves w1) as [Ht2 H22].
  rewrite H21 in H22.
  destruct (onPointerUp_frame_one_point e_up _ H22) as [Ht3 _].
  rewrite Ht3, Ht2. fold w1 in Ht1. rewrite Ht1, Hid.
  rewrite !captureCalls_app. rewrite <- app_assoc. f_equal.
  destruct (has_onSelectionBegin (callbacks (selector w)));
    destruct (has_onSelectionEnd _); reflexivity.
Qed.

Lemma C7_capture_released_once_witness :
  captureCalls
    (trace (settle [PointerDown (pointerAt readyWorld 1 10 10);
                    PointerMove (pointerAt readyWorld 1 20 20);
                    AnimationFrame;
                    PointerMove (pointerAt readyWorld 1 50 40);
                    PointerUp (pointerAt readyWorld 1 50 40)]
                   readyWorld))
  = captureCalls (trace readyWorld)
    ++ [SetPointerCapture 1; ReleasePointerCapture 1].
Proof.
  apply (C7_capture_released_once readyWorld _
           (pointerAt readyWorld 1 10 10)
           [pointerAt readyWorld 1 20 20; pointerAt readyWorld 1 50 40]
           (pointerAt readyWorld 1 50 40));
    reflexivity.
Defined.

(* ================================================================== *)
(** * Pointer-down in two-point mode                                   *)
(* ================================================================== *)

(** C10: with [isTwoPoints] set, the pointer-down listener leaves the
    selector and the trace as they are, and so does its frame body: no
    flag, cross, box or mask changes, no capture is requested and no hook
    is called.  In two-point mode, while not capturing, the only frame
    body that sets [capturingState] or calls [onSelectionBegin] is the one
    of pointer-up, which does both; the key listeners and the public
    methods do neither. *)
Theorem C10_pointer_down_inert_in_two_point_mode :
  forall (w : World) (e : PointerEvent),
    isTwoPoints (selector w) = true ->
    onPointerDown_frame e w = w /\
    selector (step w (PointerDown e)) = selector w /\
    trace (step w (PointerDown e)) = trace w /\
    (capturingState (selector w) = false ->
     (forall cb : FrameCallback,
         capturingState (selector (runFrameCallback w cb)) = true \/
         selectionBegins (trace (runFrameCallback w cb))
         <> selectionBegins (trace w) ->
         exists e', cb = UpFrame e') /\
     (forall i : Input,
         i <> AnimationFrame ->
         capturingState (selector (step w i)) = false /\
         trace (step w i) = trace w) /\
     (forall e' : PointerEvent,
         capturingState (selector (runFrameCallback w (UpFrame e'))) = true /\
         trace (runFrameCallback w (UpFrame e'))
         = trace w ++ (if has_onSelectionBegin (callbacks (selector w))
                       then [OnSelectionBegin] else []))).
Proof.
  intros w e H2.
  destruct w as [s l t q tr].
  destruct s as [br [hb he] vis ca cb' sb mk cap two md].
  cbn in H2. subst.
  split; [reflexivity|]. split; [reflexivity|]. split; [reflexivity|].
  cbn [capturingState selector]. intros ->.
  split; [|split].
  - intros cb [H | H].
    + destruct cb as [|e0|e0|e0|e0]; simpl in H; try discriminate.
      now exists e0.
    + destruct cb as [|e0|e0|e0|e0]; simpl in H;
        try (exfalso; apply H; reflexivity).
      now exists e0.
  - intros i Hi. destruct i; try (split; reflexivity).
    + unfold step, onKeyDown; simpl.
      destruct (shiftKey e0), (ctrlKey e0); split; reflexivity.
    + unfold step, onKeyUp; simpl.
      destruct (shiftKey e0), (ctrlKey e0); split; reflexivity.
    + congruence.
  - intros e'. simpl. unfold_frames.
    destruct hb; simpl; rewrite ?app_nil_r; split; reflexivity.
Qed.

Lemma C10_pointer_down_inert_in_two_point_mode_witness :
  onPointerDown_frame (pointerAt twoPointWorld 1 5 5) twoPointWorld
  = twoPointWorld.
Proof.
  apply (C10_pointer_down_inert_in_two_point_mode twoPointWorld
           (pointerAt twoPointWorld 1 5 5));
    reflexivity.
Defined.

(* ================================================================== *)
(** * CSV export                                                       *)
(* ================================================================== *)

Module CsvFacts.
Import CsvExportProvider.

Lemma checkTags_true (reg : Region.t) (assetProps : Size.t)
      (tags : list string) :
  checkTags reg assetProps tags = true <->
  tags <> [] /\ exceeds assetProps reg.
Proof.
  unfold exceeds.
  induction tags as [|tag rest IH]; simpl.
  - split; [discriminate | intros [H _]; congruence].
  - destruct (Z.gtb_spec
                (BoundingBox.left (Region.boundingBox reg)
                 + BoundingBox.width (Region.boundingBox reg))
                (Size.width assetProps)) as [Hx | Hx];
      destruct (Z.gtb_spec
                  (BoundingBox.top (Region.boundingBox reg)
                   + BoundingBox.height (Region.boundingBox reg))
                  (Size.height assetProps)) as [Hy | Hy]; simpl.
    + split; [intros _; split; [discriminate | lia] | reflexivity].
    + split; [intros _; split; [discriminate | lia] | reflexivity].
    + split; [intros _; split; [discriminate | lia] | reflexivity].
    + rewrite IH. split; intros [_ H]; lia.
Qed.

Lemma checkRegions_true (assetProps : Size.t) (regions : list Region.t) :
  checkRegions assetProps regions = true <->
  exists reg, In reg regions /\ Region.tags reg <> [] /\ exceeds assetProps reg.
Proof.
  induction regions as [|reg rest IH]; simpl.
  - split; [discriminate | intros (reg & [] & _)].
  - destruct (checkTags reg assetProps (Region.tags reg)) eqn:Hc.
    + apply checkTags_true in Hc. split; [|reflexivity].
      intros _. exists reg. tauto.
    + rewrite IH. split.
      * intros (r & Hin & H). exists r. tauto.
      * intros (r & [-> | Hin] & Ht & He).
        -- assert (checkTags r assetProps (Region.tags r) = true)
             by (apply checkTags_true; tauto).
           congruence.
        -- exists r. tauto.
Qed.

Lemma half_sum_upper (i n : nat) :
  (n <= i <= n + 1)%nat -> ((i + n) / 2 = n)%nat.
Proof.
  intros H. symmetry.
  apply Nat.div_unique with (r := (i - n)%nat); lia.
Qed.

Lemma half_sum_lower (i n : nat) :
  (i < n)%nat -> ((i + n) / 2 <= n - 1)%nat.
Proof.
  intros H.
  assert ((i + n) / 2 < n)%nat by (apply Nat.Div0.div_lt_upper_bound; lia).
  lia.
Qed.

(** The pop loop stops on its own test within the fuel it is given, and
    keeps the first half of the regions. *)
Lemma popWhileIterating_firstn (fuel : nat) :
  forall (index : nat) (regions : list Region.t),
    (List.length regions - index <= fuel)%nat ->
    (index <= List.length regions + 1)%nat ->
    popWhileIterating fuel index regions
    = firstn ((index + List.length regions) / 2) regions.
Proof.
  induction fuel as [|fuel IH]; intros index regions Hfuel Hidx;
    cbn [popWhileIterating].
  - rewrite half_sum_upper by lia. symmetry. apply firstn_all.
  - destruct (Nat.ltb_spec index (List.length regions)) as [Hlt | Hge].
    + pose proof (half_sum_lower index (List.length regions) Hlt) as Hhalf.
      assert (Hlen : List.length (removelast regions)
                     = (List.length regions - 1)%nat).
      { rewrite removelast_firstn_len, length_firstn. lia. }
      rewrite IH by (rewrite Hlen; lia).
      rewrite Hlen.
      replace (S index + (List.length regions - 1))%nat
        with (index + List.length regions)%nat by lia.
      rewrite removelast_firstn_len, firstn_firstn.
      f_equal. lia.
    + rewrite half_sum_upper by lia. symmetry. apply firstn_all.
Qed.

Lemma popRegions_firstn (regions : list Region.t) :
  popRegions regions = firstn (List.length regions / 2) regions.
Proof.
  unfold popRegions. rewrite popWhileIterating_firstn by lia.
  reflexivity.
Qed.

(** More fuel than the number of regions changes nothing. *)
Lemma popWhileIterating_fuel (fuel : nat) (regions : list Region.t) :
  (List.length regions <= fuel)%nat ->
  popWhileIterating fuel 0 regions = popRegions regions.
Proof.
  intros H. rewrite popRegions_firstn, popWhileIterating_firstn by lia.
  reflexivity.
Qed.

(** Of two regions the loop leaves one: the regions of a rejected asset
    are not all removed. *)
Example popRegions_two :
  AssetMetadata.regions
    (metadata (exportAsset Samples.measure100 false Samples.exceedingAsset))
  = [Samples.taggedBig].
Proof. reflexivity. Qed.

Section Loop.

Variable readAssetAttributes : Asset.t -> Size.t.
Variable includeImages : bool.


Lemma export_dataItems (results : list AssetMetadata.t) :
  dataItems (export readAssetAttributes includeImages results)
  = flat_map (fun m => items (exportAsset readAssetAttributes includeImages m))
             results.
Proof.
  induction results as [|m rest IH]; simpl; [reflexivity|].
  now rewrite IH.
Qed.

Lemma export_assets (results : list AssetMetadata.t) :
  assets (export readAssetAttributes includeImages results)
  = map (fun m => metadata (exportAsset readAssetAttributes includeImages m))
        results.
Proof.
  induction results as [|m rest IH]; simpl; [reflexivity|].
  now rewrite IH.
Qed.

Lemma sizeMismatch_test (m : AssetMetadata.t) (assetProps : Size.t) :
  sizeMismatch assetProps m <->
  negb (Size.width (Asset.size (AssetMetadata.asset m))
        =? Size.width assetProps)
  || negb (Size.height (Asset.size (AssetMetadata.asset m))
           =? Size.height assetProps) = true.
Proof.
  unfold sizeMismatch.
  destruct (Asset.size (AssetMetadata.asset m)) as [w h].
  destruct assetProps as [W H]. simpl.
  destruct (Z.eqb_spec w W) as [-> | Hw];
    destruct (Z.eqb_spec h H) as [-> | Hh]; simpl;
      split; try congruence; try reflexivity; intros _; congruence.
Qed.

Lemma exportAsset_rejected (m : AssetMetadata.t) :
  taggedOutOfBounds (readAssetAttributes (AssetMetadata.asset m)) m \/
  sizeMismatch (readAssetAttributes (AssetMetadata.asset m)) m ->
  items (exportAsset readAssetAttributes includeImages m) = [] /\
  Asset.state
    (AssetMetadata.asset
       (metadata (exportAsset readAssetAttributes includeImages m)))
  = NotVisited /\
  Asset.name
    (AssetMetadata.asset
       (metadata (exportAsset readAssetAttributes includeImages m)))
  = Asset.name (AssetMetadata.asset m).
Proof.
  intros H. unfold exportAsset.
  destruct (checkRegions (readAssetAttributes (AssetMetadata.asset m))
                         (AssetMetadata.regions m)) eqn:Hc; simpl.
  - repeat split; reflexivity.
  - destruct H as [H | H].
    + apply checkRegions_true in H. congruence.
    + apply sizeMismatch_test in H. rewrite H. simpl.
      repeat split; reflexivity.
Qed.

End Loop.
Lemma flat_map_without_nth {X Y : Type} (f : X -> list Y) (l : list X) :
  forall (i : nat) (x : X),
    nth_error l i = Some x -> f x = [] ->
    flat_map f l = flat_map f (firstn i l ++ skipn (S i) l).
Proof.
  induction l as [|a l IH]; intros [|i] x Hnth Hx; simpl in *;
    try discriminate.
  - injection Hnth as ->. now rewrite Hx.
  - f_equal. now apply IH with (x := x).
Qed.

(** C8, as the code has it: an asset one of whose regions carries at least
    one tag and reaches beyond the measured width or height, or whose
    recorded size is not its measured size, adds no record to the CSV
    data, and the export leaves it in state [NotVisited]. *)
Theorem C8_rejected_asset_not_exported :
  forall (readAssetAttributes : Asset.t -> Size.t) (includeImages : bool)
         (results : list AssetMetadata.t) (i : nat) (m : AssetMetadata.t),
    nth_error results i = Some m ->
    taggedOutOfBounds (readAssetAttributes (AssetMetadata.asset m)) m \/
    sizeMismatch (readAssetAttributes (AssetMetadata.asset m)) m ->
    let out := export readAssetAttributes includeImages results in
    items (exportAsset readAssetAttributes includeImages m) = [] /\
    dataItems out
    = dataItems (export readAssetAttributes includeImages
                        (firstn i results ++ skipn (S i) results)) /\
    exists m',
      nth_error (assets out) i = Some m' /\
      Asset.state (AssetMetadata.asset m') = NotVisited /\
      Asset.name (AssetMetadata.asset m')
      = Asset.name (AssetMetadata.asset m).
Proof.
  intros read inc results i m Hnth Hrej out. subst out.
  destruct (exportAsset_rejected read inc m Hrej) as (Hitems & Hstate & Hname).
  split; [exact Hitems|]. split.
  - rewrite !export_dataItems.
    now apply flat_map_without_nth with (x := m).
  - exists (metadata (exportAsset read inc m)).
    rewrite export_assets, nth_error_map, Hnth. simpl. auto.
Qed.

Lemma C8_rejected_asset_not_exported_witness :
  dataItems (export Samples.measure100 false
                    [Samples.mixedAsset; Samples.exceedingAsset;
                     Samples.resizedAsset])
  = dataItems (export Samples.measure100 false
                      [Samples.mixedAsset; Samples.resizedAsset]).
Proof.
  apply (C8_rejected_asset_not_exported Samples.measure100 false
           [Samples.mixedAsset; Samples.exceedingAsset; Samples.resizedAsset]
           1%nat Samples.exceedingAsset eq_refl).
  left. exists Samples.taggedBig.
  split; [left; reflexivity|].
  split; [discriminate|].
  left. reflexivity.
Defined.

(** C8, as stated, fails: an asset with an untagged region larger than the
    image and a tagged region inside it is exported; its records are
    emitted, its regions and its state are left as they were. *)
Lemma C8_counterexample :
  someOutOfBounds (Samples.measure100 Samples.image1) Samples.mixedAsset /\
  dataItems (export Samples.measure100 false [Samples.mixedAsset])
  = [DataItem.mk "image_1.jpg" 1 2 11 22 "cat";
     DataItem.mk "image_1.jpg" 1 2 11 22 "pet"] /\
  assets (export Samples.measure100 false [Samples.mixedAsset])
  = [Samples.mixedAsset] /\
  Asset.state (AssetMetadata.asset Samples.mixedAsset) <> NotVisited.
Proof.
  split.
  - exists Samples.untaggedBig. split; [left; reflexivity|].
    left. reflexivity.
  - repeat split; try reflexivity. discriminate.
Qed.



End CsvFacts.

(* ================================================================== *)
(** * Further properties of the selector                               *)
(* ================================================================== *)

(** A world taken apart down to its flags and coordinates. *)
Ltac open_world w :=
  let s := fresh "s" in
  destruct w as [s ? ? ? ?];
  destruct s as [[? ?] [[] []] ? [? ? ?] [? ? ?] [? ? ? ? ?] [?] [] [] ?].

Lemma runFrameCallback_config (w : World) (cb : FrameCallback) :
  boundRect (selector (runFrameCallback w cb)) = boundRect (selector w) /\
  callbacks (selector (runFrameCallback w cb)) = callbacks (selector w) /\
  selectionModificator (selector (runFrameCallback w cb))
  = selectionModificator (selector w).
Proof.
  open_world w; destruct cb; repeat split; reflexivity.
Qed.

Lemma fold_frames_config (cbs : list FrameCallback) :
  forall w,
    boundRect (selector (fold_left runFrameCallback cbs w))
    = boundRect (selector w) /\
    callbacks (selector (fold_left runFrameCallback cbs w))
    = callbacks (selector w) /\
    selectionModificator (selector (fold_left runFrameCallback cbs w))
    = selectionModificator (selector w) /\
    isTwoPoints (selector (fold_left runFrameCallback cbs w))
    = isTwoPoints (selector w).
Proof.
  induction cbs as [|cb cbs IH]; intros w; simpl.
  - repeat split; reflexivity.
  - destruct (IH (runFrameCallback w cb)) as (Hb & Hc & Hm & H2).
    destruct (runFrameCallback_config w cb) as (Hb' & Hc' & Hm').
    pose proof (runFrameCallback_mode w cb) as H2'.
    repeat split; congruence.
Qed.

Lemma step_config (w : World) (i : Input) :
  boundRect (selector (step w i)) = boundRect (selector w) /\
  callbacks (selector (step w i)) = callbacks (selector w) /\
  (keyFree i = true ->
   selectionModificator (selector (step w i))
   = selectionModificator (selector w) /\
   isTwoPoints (selector (step w i)) = isTwoPoints (selector w)).
Proof.
  destruct i as [e|e|e|e|e|e|e| | |]; simpl;
    try (repeat split; reflexivity).
  - split; [|split]; [| |intros H; discriminate H];
      open_world w; destruct e as [[] []]; reflexivity.
  - split; [|split]; [| |intros H; discriminate H];
      open_world w; destruct e as [[] []]; reflexivity.
  - unfold animationFrame.
    destruct (fold_frames_config (frameRequests w) (clearFrameRequests w))
      as (Hb & Hc & Hm & H2).
    repeat split; assumption.
Qed.

(** X1: only key events change the mode of a selector: over any run of
    pointer events, animation frames, [hide()] and [show()], in any order
    and with no key event among them, [isTwoPoints] and
    [selectionModificator] end as they began. *)
Theorem X1_only_keys_change_mode :
  forall (ins : list Input) (w : World),
    forallb keyFree ins = true ->
    selectionModificator (selector (run ins w))
    = selectionModificator (selector w) /\
    isTwoPoints (selector (run ins w)) = isTwoPoints (selector w).
Proof.
  unfold run.
  induction ins as [|i ins IH]; intros w H; simpl.
  - split; reflexivity.
  - simpl in H. apply andb_prop in H. destruct H as [Hi Hins].
    destruct (IH (step w i) Hins) as [Hm H2].
    destruct (step_config w i) as (_ & _ & Hk).
    destruct (Hk Hi) as [Hm' H2'].
    split; congruence.
Qed.

Lemma X1_only_keys_change_mode_witness :
  selectionModificator
    (selector (run [PointerMove (pointerAt sampleWorld 1 10 10);
                    PointerDown (pointerAt sampleWorld 1 10 10);
                    AnimationFrame; CallHide; CallShow]
                   sampleWorld))
  = selectionModificator (selector sampleWorld) /\
  isTwoPoints
    (selector (run [PointerMove (pointerAt sampleWorld 1 10 10);
                    PointerDown (pointerAt sampleWorld 1 10 10);
                    AnimationFrame; CallHide; CallShow]
                   sampleWorld))
  = isTwoPoints (selector sampleWorld).
Proof.
  apply (X1_only_keys_change_mode
           [PointerMove (pointerAt sampleWorld 1 10 10);
            PointerDown (pointerAt sampleWorld 1 10 10);
            AnimationFrame; CallHide; CallShow]
           sampleWorld).
  reflexivity.
Defined.

(** Evaluation as [run_frames], with the hypotheses as well. *)
Ltac run_frames_in H :=
  cbv -[Z.add Z.sub Z.opp Z.mul Z.abs Z.min Z.max Z.sgn Z.ltb
        Z.le Z.lt Z.ge Z.gt app selectionEnds selectionBegins captureCalls
        commitRegion moveSelectionBox] in H.

Lemma runFrameCallback_boxSynced (w : World) (cb : FrameCallback) :
  (capturingState (selector w) = true -> boxSynced (selector w)) ->
  capturingState (selector (runFrameCallback w cb)) = true ->
  boxSynced (selector (runFrameCallback w cb)).
Proof.
  unfold boxSynced.
  open_world w; destruct cb; intros H H';
    run_frames_in H; run_frames_in H'; run_frames;
    try discriminate H'; try (apply H; reflexivity);
    rewrite ?moveSelectionBox_eq; simpl; repeat split; reflexivity.
Qed.

Lemma fold_frames_boxSynced (cbs : list FrameCallback) :
  forall w,
    (capturingState (selector w) = true -> boxSynced (selector w)) ->
    capturingState (selector (fold_left runFrameCallback cbs w)) = true ->
    boxSynced (selector (fold_left runFrameCallback cbs w)).
Proof.
  induction cbs as [|cb cbs IH]; intros w H; simpl.
  - exact H.
  - apply IH. now apply runFrameCallback_boxSynced.
Qed.

Lemma step_boxSynced (w : World) (i : Input) :
  (capturingState (selector w) = true -> boxSynced (selector w)) ->
  capturingState (selector (step w i)) = true ->
  boxSynced (selector (step w i)).
Proof.
  destruct i as [e|e|e|e|e|e|e| | |];
    try (intros H; exact H);
    try (intros H; apply fold_frames_boxSynced;
         destruct w as [s l t q tr]; exact H);
    try destruct e as [[] []];
    unfold boxSynced; open_world w; intros H H';
    run_frames_in H; run_frames_in H'; run_frames;
    try discriminate H'; apply H; reflexivity.
Qed.

Lemma run_boxSynced (ins : list Input) :
  forall w,
    (capturingState (selector w) = true -> boxSynced (selector w)) ->
    capturingState (selector (run ins w)) = true ->
    boxSynced (selector (run ins w)).
Proof.
  unfold run.
  induction ins as [|i ins IH]; intros w H; simpl.
  - exact H.
  - apply IH. now apply step_boxSynced.
Qed.

(** X2: whatever the host does to a selector after its construction
    (pointer and key events, animation frames, [hide()], [show()], in any
    order), while [capturingState] is set the selection box is the
    normalised rectangle spanned by [crossA] and [crossB]: its origin is
    their componentwise minimum and its size their absolute difference. *)
Theorem X2_box_follows_crosses_while_capturing :
  forall (boundRect : Rect.t) (callbacks : ISelectorCallbacks)
         (left top : Z) (ins : list Input),
    let w := run ins (mkWorld (newRectSelector boundRect callbacks)
                              left top [] []) in
    capturingState (selector w) = true -> boxSynced (selector w).
Proof.
  intros br cbk l t ins w. subst w.
  apply run_boxSynced. intros H. discriminate H.
Qed.

Lemma X2_box_follows_crosses_while_capturing_witness :
  boxSynced
    (selector (run [PointerMove (pointerAt sampleWorld 1 10 10);
                    PointerDown (pointerAt sampleWorld 1 10 10);
                    PointerMove (pointerAt sampleWorld 1 50 40);
                    AnimationFrame; KeyDown ctrlDown]
                   sampleWorld)).
Proof.
  apply (X2_box_follows_crosses_while_capturing
           (Rect.mk 100 100) (mkCallbacks true true) 7 3
           [PointerMove (pointerAt sampleWorld 1 10 10);
            PointerDown (pointerAt sampleWorld 1 10 10);
            PointerMove (pointerAt sampleWorld 1 50 40);
            AnimationFrame; KeyDown ctrlDown]).
  reflexivity.
Defined.

Lemma run_snoc (ins : list Input) (i : Input) (w : World) :
  run (ins ++ [i]) w = step (run ins w) i.
Proof.
  unfold run. rewrite fold_left_app. reflexivity.
Qed.

Lemma run_callbacks (ins : list Input) :
  forall w, callbacks (selector (run ins w)) = callbacks (selector w).
Proof.
  unfold run.
  induction ins as [|i ins IH]; intros w; simpl; [reflexivity|].
  rewrite IH. apply (step_config w i).
Qed.

Lemma settle_pointer_up (e : PointerEvent) (w : World) :
  frameRequests w = [] ->
  settle [PointerUp e] w = onPointerUp_frame e w.
Proof.
  intros Hq. unfold settle, run; simpl. unfold onPointerUp.
  rewrite animationFrame_request, animationFrame_idle by exact Hq.
  reflexivity.
Qed.

Lemma onPointerUp_frame_commits_box (e : PointerEvent) (w : World) :
  capturingState (selector w) = true ->
  boxSynced (selector w) ->
  has_onSelectionEnd (callbacks (selector w)) = true ->
  selectionEnds (trace (onPointerUp_frame e w))
  = selectionEnds (trace w) ++ [boxRegion (selectionBox (selector w))].
Proof.
  unfold boxSynced, boxRegion.
  open_world w; intros Hc Hs He;
    run_frames_in Hc; run_frames_in Hs; run_frames_in He;
    try discriminate Hc; try discriminate He;
    destruct Hs as (-> & -> & -> & ->);
    run_frames; rewrite !selectionEnds_app, commitRegion_eq; simpl;
    rewrite ?app_nil_r; reflexivity.
Qed.

(** X3: the region of a commit is the box that was drawn.  In every state
    a selector reaches after its construction with no frame callback
    pending, if a capture is running and an [onSelectionEnd] hook is
    registered, the next pointer-up (in one-point as in two-point mode)
    hands over exactly one region, the RECT region with the position and
    the size of the selection box. *)
Theorem X3_commit_is_the_drawn_box :
  forall (boundRect : Rect.t) (callbacks : ISelectorCallbacks)
         (left top : Z) (ins : list Input) (e : PointerEvent),
    has_onSelectionEnd callbacks = true ->
    let w := settle ins (mkWorld (newRectSelector boundRect callbacks)
                                 left top [] []) in
    capturingState (selector w) = true ->
    selectionEnds (trace (settle [PointerUp e] w))
    = selectionEnds (trace w) ++ [boxRegion (selectionBox (selector w))].
Proof.
  intros br cbk l t ins e He w Hc.
  rewrite settle_pointer_up by apply animationFrame_requests.
  assert (Hw : w = run (ins ++ [AnimationFrame])
                       (mkWorld (newRectSelector br cbk) l t [] []))
    by (rewrite run_snoc; reflexivity).
  apply onPointerUp_frame_commits_box.
  - exact Hc.
  - rewrite Hw in Hc |- *. apply run_boxSynced; [|exact Hc].
    intros H. discriminate H.
  - rewrite Hw, run_callbacks. exact He.
Qed.

Lemma X3_commit_is_the_drawn_box_witness :
  selectionEnds (trace (settle [PointerUp (pointerAt armedWorld 1 90 90)]
                               armedWorld))
  = selectionEnds (trace armedWorld)
    ++ [boxRegion (selectionBox (selector armedWorld))].
Proof.
  apply (X3_commit_is_the_drawn_box
           (Rect.mk 100 100) (mkCallbacks true true) 7 3
           [KeyDown ctrlDown;
            PointerMove (pointerAt sampleWorld 1 5 5);
            PointerDown (pointerAt sampleWorld 1 5 5);
            PointerUp (pointerAt sampleWorld 1 5 5);
            PointerMove (pointerAt sampleWorld 1 25 15)]
           (pointerAt armedWorld 1 90 90));
    reflexivity.
Defined.

(* ------------------------------------------------------------------ *)
(** ** A drag in one-point mode                                         *)

Lemma last_cons_default {X : Type} (l : list X) :
  forall (x d : X), last (x :: l) d = last l x.
Proof.
  induction l as [|y l IH]; intros x d; [reflexivity|].
  change (last (x :: y :: l) d) with (last (y :: l) d).
  rewrite IH. symmetry. apply IH.
Qed.

(** One pointer-move of a running one-point capture, free rectangle:
    [crossB] goes under the pointer (clamped), nothing else that a later
    body reads changes. *)
Lemma capturing_move_step (e : PointerEvent) (w : World) :
  isTwoPoints (selector w) = false ->
  capturingState (selector w) = true ->
  selectionModificator (selector w) = RECT ->
  let w' := onPointerMove_frame e w in
  (isTwoPoints (selector w') = false /\
   capturingState (selector w') = true /\
   selectionModificator (selector w') = RECT) /\
  (callbacks (selector w') = callbacks (selector w) /\
   boundRect (selector w') = boundRect (selector w) /\
   clientLeft w' = clientLeft w /\ clientTop w' = clientTop w) /\
  trace w' = trace w /\
  CrossElement.point (crossA (selector w'))
  = CrossElement.point (crossA (selector w)) /\
  CrossElement.point (crossB (selector w'))
  = boundToRect (boundRect (selector w)) (localPoint e w).
Proof.
  open_world w; intros H2 Hc Hm;
    run_frames_in H2; run_frames_in Hc; try discriminate;
    cbn in Hm; subst; repeat split; reflexivity.
Qed.

Lemma capturing_moves (es : list PointerEvent) :
  forall w,
    isTwoPoints (selector w) = false ->
    capturingState (selector w) = true ->
    selectionModificator (selector w) = RECT ->
    let w' := fold_left runFrameCallback (map MoveFrame es) w in
    isTwoPoints (selector w') = false /\
    callbacks (selector w') = callbacks (selector w) /\
    trace w' = trace w /\
    CrossElement.point (crossA (selector w'))
    = CrossElement.point (crossA (selector w)) /\
    CrossElement.point (crossB (selector w'))
    = last (map (fun e => boundToRect (boundRect (selector w))
                                      (localPoint e w)) es)
           (CrossElement.point (crossB (selector w))).
Proof.
  induction es as [|e es IH]; intros w H2 Hc Hm; simpl.
  - repeat split; try reflexivity; assumption.
  - destruct (capturing_move_step e w H2 Hc Hm)
      as ((H2' & Hc' & Hm') & (Hcb & Hbr & Hl & Ht) & Htr & Ha & Hb).
    destruct (IH _ H2' Hc' Hm') as (I2 & Icb & Itr & Ia & Ib).
    split; [exact I2|]. split; [congruence|]. split; [congruence|].
    split; [congruence|].
    rewrite Ib, Hb, Hbr.
    assert (Hmap : map (fun e0 => boundToRect (boundRect (selector w))
                          (localPoint e0 (onPointerMove_frame e w))) es
                   = map (fun e0 => boundToRect (boundRect (selector w))
                            (localPoint e0 w)) es).
    { apply map_ext. intros e0. unfold localPoint. now rewrite Hl, Ht. }
    rewrite Hmap. cbn [map]. symmetry. apply last_cons_default.
Qed.

Lemma onPointerDown_frame_drag_start (e : PointerEvent) (w : World) :
  isTwoPoints (selector w) = false ->
  selectionModificator (selector w) = RECT ->
  let w' := onPointerDown_frame e w in
  (isTwoPoints (selector w') = false /\
   capturingState (selector w') = true /\
   selectionModificator (selector w') = RECT) /\
  (callbacks (selector w') = callbacks (selector w) /\
   boundRect (selector w') = boundRect (selector w) /\
   clientLeft w' = clientLeft w /\ clientTop w' = clientTop w) /\
  selectionEnds (trace w') = selectionEnds (trace w) /\
  CrossElement.point (crossA (selector w'))
  = CrossElement.point (crossA (selector w)) /\
  CrossElement.point (crossB (selector w'))
  = boundToRect (boundRect (selector w))
                (CrossElement.point (crossA (selector w))).
Proof.
  open_world w; intros H2 Hm;
    run_frames_in H2; try discriminate;
    cbn in Hm; subst; run_frames;
    rewrite ?selectionEnds_app; simpl; rewrite ?app_nil_r;
    repeat split; reflexivity.
Qed.

(** X4: a drag in one-point mode, free rectangle, with an [onSelectionEnd]
    hook: pointer-down, any number of pointer-moves, pointer-up, the
    animation frames anywhere in between.  Exactly one region is handed
    over: the RECT region spanned by the place of [crossA] at the down and
    by the last pointer-move, clamped to the bound rectangle; the moves
    before the last do not matter, and without a move the second corner is
    the clamped place of [crossA]. *)
Theorem X4_drag_commits_span_to_last_move :
  forall (w : World) (ins : list Input)
         (e_down : PointerEvent) (es : list PointerEvent)
         (e_up : PointerEvent),
    frameRequests w = [] ->
    isTwoPoints (selector w) = false ->
    selectionModificator (selector w) = RECT ->
    has_onSelectionEnd (callbacks (selector w)) = true ->
    forallb pointerOrFrame ins = true ->
    flat_map frameCallbackOf ins
    = DownFrame e_down :: map MoveFrame es ++ [UpFrame e_up] ->
    let a := CrossElement.point (crossA (selector w)) in
    let b := last (map (fun e => boundToRect (boundRect (selector w))
                                             (localPoint e w)) es)
                  (boundToRect (boundRect (selector w)) a) in
    selectionEnds (trace (settle ins w))
    = selectionEnds (trace w) ++ [spanRegion a b].
Proof.
  intros w ins e_down es e_up Hq H2 Hm He Hins Hcbs a b.
  rewrite (settle_pointer_inputs ins w Hins), Hcbs, (animationFrame_idle w Hq).
  simpl. rewrite fold_left_app. simpl.
  destruct (onPointerDown_frame_drag_start e_down w H2 Hm)
    as ((H2' & Hc' & Hm') & (Hcb & Hbr & Hl & Ht) & Htr & Ha & Hb).
  destruct (capturing_moves es _ H2' Hc' Hm') as (I2 & Icb & Itr & Ia & Ib).
  set (w2 := fold_left runFrameCallback (map MoveFrame es)
                       (onPointerDown_frame e_down w)) in *.
  destruct (onPointerUp_frame_one_point e_up w2 I2) as [Hup _].
  rewrite Hup, Icb, Hcb, He, selectionEnds_app, Itr, Htr. simpl.
  f_equal. f_equal. rewrite commitRegion_eq. unfold spanRegion.
  assert (Hb2 : CrossElement.point (crossB (selector w2)) = b).
  { rewrite Ib, Hb, Hbr. unfold b, a. f_equal.
    apply map_ext. intros e0. unfold localPoint. now rewrite Hl, Ht. }
  assert (Ha2 : CrossElement.point (crossA (selector w2)) = a)
    by (rewrite Ia, Ha; reflexivity).
  unfold CrossElement.point in Ha2, Hb2.
  rewrite <- Ha2, <- Hb2. reflexivity.
Qed.

Lemma X4_drag_commits_span_to_last_move_witness :
  selectionEnds
    (trace (settle [PointerDown (pointerAt readyWorld 1 10 10);
                    PointerMove (pointerAt readyWorld 1 80 5);
                    AnimationFrame;
                    PointerMove (pointerAt readyWorld 1 50 400);
                    PointerUp (pointerAt readyWorld 1 50 400)]
                   readyWorld))
  = selectionEnds (trace readyWorld)
    ++ [spanRegion (Point2D.mk 10 10) (Point2D.mk 50 100)].
Proof.
  apply (X4_drag_commits_span_to_last_move readyWorld _
           (pointerAt readyWorld 1 10 10)
           [pointerAt readyWorld 1 80 5; pointerAt readyWorld 1 50 400]
           (pointerAt readyWorld 1 50 400));
    reflexivity.
Defined.

(* ------------------------------------------------------------------ *)
(** ** Hooks and capture requests over a run                            *)

Lemma selectionBegins_app (t1 t2 : list Effect) :
  selectionBegins (t1 ++ t2)
  = (selectionBegins t1 + selectionBegins t2)%nat.
Proof.
  induction t1 as [|eff t1 IH]; simpl; [reflexivity|].
  destruct eff; simpl; now rewrite IH.
Qed.

(** The effects one frame body adds to the trace. *)
Lemma runFrameCallback_trace (w : World) (cb : FrameCallback) :
  exists added,
    trace (runFrameCallback w cb) = trace w ++ added /\
    (isTwoPoints (selector w) = true -> captureCalls added = []) /\
    (isTwoPoints (selector w) = false ->
     captureCalls added = captureCallOf cb) /\
    (has_onSelectionEnd (callbacks (selector w)) = false ->
     selectionEnds added = []) /\
    (has_onSelectionBegin (callbacks (selector w)) = false ->
     selectionBegins added = 0%nat) /\
    (isTwoPoints (selector w) = true ->
     has_onSelectionBegin (callbacks (selector w)) = true ->
     has_onSelectionEnd (callbacks (selector w)) = true ->
     (selectionBegins added
      + boolToNat (capturingState (selector w))
      = List.length (selectionEnds added)
        + boolToNat (capturingState (selector (runFrameCallback w cb))))%nat).
Proof.
  open_world w; destruct cb; run_frames;
    rewrite <- ?app_assoc;
    match goal with
    | |- exists added, ?t ++ ?a = ?t ++ added /\ _ => exists a
    | |- exists added, ?t = ?t ++ added /\ _ => exists (@nil Effect)
    end;
    rewrite ?app_nil_r;
    (split; [reflexivity|]); repeat split; intros; try reflexivity;
    discriminate.
Qed.

Lemma step_trace_other (w : World) (i : Input) :
  i <> AnimationFrame -> trace (step w i) = trace w.
Proof.
  intros Hi. destruct i as [e|e|e|e|e|e|e| | |]; try reflexivity.
  - open_world w; destruct e as [[] []]; reflexivity.
  - open_world w; destruct e as [[] []]; reflexivity.
  - congruence.
Qed.

Lemma fold_frames_trace_hooks (cbs : list FrameCallback) :
  forall w,
    (has_onSelectionEnd (callbacks (selector w)) = false ->
     selectionEnds (trace (fold_left runFrameCallback cbs w))
     = selectionEnds (trace w)) /\
    (has_onSelectionBegin (callbacks (selector w)) = false ->
     selectionBegins (trace (fold_left runFrameCallback cbs w))
     = selectionBegins (trace w)).
Proof.
  induction cbs as [|cb cbs IH]; intros w; simpl.
  - split; reflexivity.
  - destruct (IH (runFrameCallback w cb)) as [IE IB].
    destruct (runFrameCallback_config w cb) as (_ & Hc & _).
    destruct (runFrameCallback_trace w cb)
      as (added & Ht & _ & _ & HE & HB & _).
    rewrite Hc in IE, IB.
    split; intros H.
    + rewrite (IE H), Ht, selectionEnds_app, (HE H). apply app_nil_r.
    + rewrite (IB H), Ht, selectionBegins_app, (HB H). apply Nat.add_0_r.
Qed.

(** X5: a hook that is not registered is never called.  Over any run of
    inputs, key events and [hide()] and [show()] included, a selector
    without an [onSelectionEnd] hook hands over no region, and a selector
    without an [onSelectionBegin] hook announces no selection. *)
Theorem X5_absent_hooks_never_called :
  forall (ins : list Input) (w : World),
    (has_onSelectionEnd (callbacks (selector w)) = false ->
     selectionEnds (trace (run ins w)) = selectionEnds (trace w)) /\
    (has_onSelectionBegin (callbacks (selector w)) = false ->
     selectionBegins (trace (run ins w)) = selectionBegins (trace w)).
Proof.
  unfold run.
  induction ins as [|i ins IH]; intros w; simpl.
  - split; reflexivity.
  - destruct (IH (step w i)) as [IE IB].
    destruct (step_config w i) as (_ & Hc & _).
    rewrite Hc in IE, IB.
    assert (Hs : (has_onSelectionEnd (callbacks (selector w)) = false ->
                  selectionEnds (trace (step w i)) = selectionEnds (trace w))
                 /\
                 (has_onSelectionBegin (callbacks (selector w)) = false ->
                  selectionBegins (trace (step w i))
                  = selectionBegins (trace w))).
    { destruct i as [e|e|e|e|e|e|e| | |];
        try (rewrite step_trace_other by discriminate; split; reflexivity).
      simpl. unfold animationFrame.
      destruct w as [s l t q tr].
      apply (fold_frames_trace_hooks q (mkWorld s l t [] tr)). }
    destruct Hs as [SE SB].
    split; intros H.
    + rewrite (IE H). exact (SE H).
    + rewrite (IB H). exact (SB H).
Qed.

Lemma X5_absent_hooks_never_called_witness :
  let w := mkWorld (newRectSelector (Rect.mk 100 100)
                                    (mkCallbacks true false)) 0 0 [] [] in
  selectionEnds
    (trace (run [PointerMove (pointerAt w 1 10 10);
                 PointerDown (pointerAt w 1 10 10);
                 PointerMove (pointerAt w 1 50 40);
                 PointerUp (pointerAt w 1 50 40);
                 AnimationFrame] w))
  = selectionEnds (trace w).
Proof.
  intros w.
  apply (X5_absent_hooks_never_called
           [PointerMove (pointerAt w 1 10 10);
            PointerDown (pointerAt w 1 10 10);
            PointerMove (pointerAt w 1 50 40);
            PointerUp (pointerAt w 1 50 40);
            AnimationFrame] w).
  reflexivity.
Defined.

Lemma twoPointKept_refl (w w' : World) :
  isTwoPoints (selector w) = true ->
  selector w' = selector w -> trace w' = trace w ->
  twoPointKept w w'.
Proof.
  intros H2 Hs Ht. unfold twoPointKept. rewrite Hs, Ht.
  split; [exact H2|]. split; [reflexivity|]. intros _ _. lia.
Qed.

Lemma twoPointKept_trans (w1 w2 w3 : World) :
  callbacks (selector w2) = callbacks (selector w1) ->
  twoPointKept w1 w2 -> twoPointKept w2 w3 -> twoPointKept w1 w3.
Proof.
  unfold twoPointKept. intros Hc (_ & C12 & B12) (H3 & C23 & B23).
  rewrite Hc in B23.
  split; [exact H3|]. split; [congruence|].
  intros Hb He. specialize (B12 Hb He). specialize (B23 Hb He). lia.
Qed.

Lemma runFrameCallback_twoPointKept (w : World) (cb : FrameCallback) :
  isTwoPoints (selector w) = true ->
  twoPointKept w (runFrameCallback w cb).
Proof.
  intros H2. unfold twoPointKept.
  destruct (runFrameCallback_trace w cb)
    as (added & Ht & HC & _ & _ & _ & HB).
  split; [rewrite runFrameCallback_mode; exact H2|].
  split.
  - rewrite Ht, captureCalls_app, (HC H2). apply app_nil_r.
  - intros Hb He. specialize (HB H2 Hb He).
    rewrite Ht, selectionBegins_app, selectionEnds_app, length_app. lia.
Qed.

Lemma fold_frames_twoPointKept (cbs : list FrameCallback) :
  forall w,
    isTwoPoints (selector w) = true ->
    twoPointKept w (fold_left runFrameCallback cbs w).
Proof.
  induction cbs as [|cb cbs IH]; intros w H2; simpl.
  - now apply twoPointKept_refl.
  - pose proof (runFrameCallback_twoPointKept w cb H2) as K1.
    apply twoPointKept_trans with (w2 := runFrameCallback w cb).
    + apply (runFrameCallback_config w cb).
    + exact K1.
    + apply IH. apply K1.
Qed.

Lemma step_twoPointKept (w : World) (i : Input) :
  keyFree i = true ->
  isTwoPoints (selector w) = true ->
  twoPointKept w (step w i).
Proof.
  intros Hi H2.
  destruct i as [e|e|e|e|e|e|e| | |]; try discriminate Hi;
    try (apply twoPointKept_refl; [exact H2 | reflexivity | reflexivity]).
  - simpl. unfold animationFrame.
    destruct w as [s l t q tr].
    apply (fold_frames_twoPointKept q (mkWorld s l t [] tr) H2).
  - open_world w; try discriminate H2;
      unfold twoPointKept; repeat split; reflexivity.
  - open_world w; try discriminate H2;
      unfold twoPointKept; repeat split; reflexivity.
Qed.

Lemma run_twoPointKept (ins : list Input) :
  forall w,
    forallb keyFree ins = true ->
    isTwoPoints (selector w) = true ->
    twoPointKept w (run ins w).
Proof.
  unfold run.
  induction ins as [|i ins IH]; intros w Hins H2; simpl.
  - now apply twoPointKept_refl.
  - simpl in Hins. apply andb_prop in Hins. destruct Hins as [Hi Hins].
    pose proof (step_twoPointKept w i Hi H2) as K1.
    apply twoPointKept_trans with (w2 := step w i).
    + apply (step_config w i).
    + exact K1.
    + apply IH; [exact Hins | apply K1].
Qed.

(** X6: in two-point mode the selector never touches pointer capture.
    Over any run without key events that starts with [isTwoPoints] set,
    neither [setPointerCapture] nor [releasePointerCapture] is called,
    whatever pointer events arrive. *)
Theorem X6_two_point_mode_never_captures :
  forall (ins : list Input) (w : World),
    forallb keyFree ins = true ->
    isTwoPoints (selector w) = true ->
    captureCalls (trace (run ins w)) = captureCalls (trace w).
Proof.
  intros ins w Hins H2. apply (run_twoPointKept ins w Hins H2).
Qed.

Lemma X6_two_point_mode_never_captures_witness :
  captureCalls
    (trace (run [PointerMove (pointerAt twoPointWorld 1 5 5);
                 PointerDown (pointerAt twoPointWorld 1 5 5);
                 PointerUp (pointerAt twoPointWorld 1 5 5);
                 AnimationFrame;
                 PointerUp (pointerAt twoPointWorld 1 25 15);
                 AnimationFrame]
                twoPointWorld))
  = captureCalls (trace twoPointWorld).
Proof.
  apply (X6_two_point_mode_never_captures _ twoPointWorld); reflexivity.
Defined.

Lemma fold_frames_trace_extends (cbs : list FrameCallback) :
  forall w, exists added,
    trace (fold_left runFrameCallback cbs w) = trace w ++ added.
Proof.
  induction cbs as [|cb cbs IH]; intros w; simpl.
  - exists []. now rewrite app_nil_r.
  - destruct (runFrameCallback_trace w cb) as (a & Ha & _).
    destruct (IH (runFrameCallback w cb)) as (b & Hb).
    exists (a ++ b). rewrite Hb, Ha. symmetry. apply app_assoc.
Qed.

Lemma step_trace_extends (w : World) (i : Input) :
  exists added, trace (step w i) = trace w ++ added.
Proof.
  destruct i as [e|e|e|e|e|e|e| | |];
    try (exists []; rewrite step_trace_other by discriminate;
         now rewrite app_nil_r).
  simpl. unfold animationFrame. destruct w as [s l t q tr].
  apply (fold_frames_trace_extends q (mkWorld s l t [] tr)).
Qed.

(** The trace only grows. *)
Lemma run_trace_extends (ins : list Input) :
  forall w, exists added, trace (run ins w) = trace w ++ added.
Proof.
  unfold run.
  induction ins as [|i ins IH]; intros w; simpl.
  - exists []. now rewrite app_nil_r.
  - destruct (step_trace_extends w i) as (a & Ha).
    destruct (IH (step w i)) as (b & Hb).
    exists (a ++ b). rewrite Hb, Ha. symmetry. apply app_assoc.
Qed.

(** X7: in two-point mode with both hooks registered, selections are
    announced and finished in turn.  Over any run without key events, the
    calls of [onSelectionBegin] exceed the calls of [onSelectionEnd] by one
    while a capture is running and equal them otherwise (counted from a
    state in which no capture is running). *)
Theorem X7_two_point_begin_end_in_turn :
  forall (ins : list Input) (w : World),
    forallb keyFree ins = true ->
    isTwoPoints (selector w) = true ->
    capturingState (selector w) = false ->
    has_onSelectionBegin (callbacks (selector w)) = true ->
    has_onSelectionEnd (callbacks (selector w)) = true ->
    (selectionBegins (trace (run ins w)) - selectionBegins (trace w)
     = List.length (selectionEnds (trace (run ins w)))
       - List.length (selectionEnds (trace w))
       + boolToNat (capturingState (selector (run ins w))))%nat /\
    (selectionBegins (trace w) <= selectionBegins (trace (run ins w)))%nat /\
    (List.length (selectionEnds (trace w))
     <= List.length (selectionEnds (trace (run ins w))))%nat.
Proof.
  intros ins w Hins H2 Hc Hb He.
  destruct (run_twoPointKept ins w Hins H2) as (_ & _ & B).
  specialize (B Hb He). rewrite Hc in B. simpl in B.
  destruct (run_trace_extends ins w) as (added & Hadd).
  rewrite Hadd in *.
  rewrite selectionBegins_app, selectionEnds_app, length_app in *.
  lia.
Qed.

Lemma X7_two_point_begin_end_in_turn_witness :
  (selectionBegins
     (trace (run [PointerUp (pointerAt twoPointWorld 1 5 5);
                  AnimationFrame;
                  PointerUp (pointerAt twoPointWorld 1 25 15);
                  PointerUp (pointerAt twoPointWorld 1 30 30);
                  AnimationFrame]
                 twoPointWorld))
   - selectionBegins (trace twoPointWorld)
   = List.length
       (selectionEnds
          (trace (run [PointerUp (pointerAt twoPointWorld 1 5 5);
                       AnimationFrame;
                       PointerUp (pointerAt twoPointWorld 1 25 15);
                       PointerUp (pointerAt twoPointWorld 1 30 30);
                       AnimationFrame]
                      twoPointWorld)))
     - List.length (selectionEnds (trace twoPointWorld))
     + boolToNat
         (capturingState
            (selector (run [PointerUp (pointerAt twoPointWorld 1 5 5);
                            AnimationFrame;
                            PointerUp (pointerAt twoPointWorld 1 25 15);
                            PointerUp (pointerAt twoPointWorld 1 30 30);
                            AnimationFrame]
                           twoPointWorld))))%nat.
Proof.
  apply (X7_two_point_begin_end_in_turn
           [PointerUp (pointerAt twoPointWorld 1 5 5);
            AnimationFrame;
            PointerUp (pointerAt twoPointWorld 1 25 15);
            PointerUp (pointerAt twoPointWorld 1 30 30);
            AnimationFrame]
           twoPointWorld);
    reflexivity.
Defined.

Lemma fold_frames_one_point_captures (cbs : list FrameCallback) :
  forall w,
    isTwoPoints (selector w) = false ->
    captureCalls (trace (fold_left runFrameCallback cbs w))
    = captureCalls (trace w) ++ flat_map captureCallOf cbs.
Proof.
  induction cbs as [|cb cbs IH]; intros w H2; simpl.
  - now rewrite app_nil_r.
  - destruct (runFrameCallback_trace w cb) as (added & Ht & _ & HC & _).
    rewrite IH by (rewrite runFrameCallback_mode; exact H2).
    rewrite Ht, captureCalls_app, (HC H2). symmetry. apply app_assoc.
Qed.

(** X8: in one-point mode the capture requests mirror the pointer events
    one for one, whatever their order: every pointer-down calls
    [setPointerCapture] and every pointer-up calls [releasePointerCapture],
    each with the pointer id of its event and in the order of the events;
    no other event touches pointer capture.  So a pointer-up that no
    pointer-down precedes still calls [releasePointerCapture], and a second
    pointer-down calls [setPointerCapture] again. *)
Theorem X8_one_point_capture_calls_mirror_events :
  forall (ins : list Input) (w : World),
    forallb pointerOrFrame ins = true ->
    frameRequests w = [] ->
    isTwoPoints (selector w) = false ->
    captureCalls (trace (settle ins w))
    = captureCalls (trace w)
      ++ flat_map captureCallOf (flat_map frameCallbackOf ins).
Proof.
  intros ins w Hins Hq H2.
  rewrite (settle_pointer_inputs ins w Hins), (animationFrame_idle w Hq).
  now apply fold_frames_one_point_captures.
Qed.

Lemma X8_one_point_capture_calls_mirror_events_witness :
  captureCalls
    (trace (settle [PointerUp (pointerAt readyWorld 2 10 10);
                    PointerDown (pointerAt readyWorld 1 10 10);
                    PointerLeave (pointerAt readyWorld 1 10 10);
                    AnimationFrame;
                    PointerDown (pointerAt readyWorld 3 10 10)]
                   readyWorld))
  = captureCalls (trace readyWorld)
    ++ [ReleasePointerCapture 2; SetPointerCapture 1; SetPointerCapture 3].
Proof.
  apply (X8_one_point_capture_calls_mirror_events
           [PointerUp (pointerAt readyWorld 2 10 10);
            PointerDown (pointerAt readyWorld 1 10 10);
            PointerLeave (pointerAt readyWorld 1 10 10);
            AnimationFrame;
            PointerDown (pointerAt readyWorld 3 10 10)]
           readyWorld);
    reflexivity.
Defined.

(* ------------------------------------------------------------------ *)
(** ** Pointer-leave, keys during a drag, hide() and show()             *)

(** X9: a pointer-leave never ends a capture.  Its body leaves
    [capturingState], the mode flags, the place of [crossA] and the trace
    as they are; during a one-point capture it changes nothing at all;
    while no capture is running it hides [crossA], [crossB] and the
    selection box and moves nothing. *)
Theorem X9_pointer_leave_keeps_capture :
  forall (w : World) (e : PointerEvent),
    let w' := onPointerLeave_frame e w in
    capturingState (selector w') = capturingState (selector w) /\
    isTwoPoints (selector w') = isTwoPoints (selector w) /\
    trace w' = trace w /\
    CrossElement.point (crossA (selector w'))
    = CrossElement.point (crossA (selector w)) /\
    (capturingState (selector w) = true ->
     isTwoPoints (selector w) = false -> w' = w) /\
    (capturingState (selector w) = false ->
     selector w'
     = hideAll [CrossA; CrossB; SelectionBox] (selector w)).
Proof.
  intros w e w'. subst w'.
  open_world w; run_frames; repeat split; intros; try reflexivity;
    discriminate.
Qed.

Lemma X9_pointer_leave_keeps_capture_witness :
  onPointerLeave_frame (pointerAt draggingWorld 1 200 50) draggingWorld
  = draggingWorld.
Proof.
  apply (X9_pointer_leave_keeps_capture draggingWorld
           (pointerAt draggingWorld 1 200 50));
    reflexivity.
Defined.

(** X10: the ctrl key has no effect on a running one-point drag.  While
    [capturingState] is set and [isTwoPoints] is not, a key-down without
    shift changes nothing, whether ctrl is held or not, and a key-up
    without shift only sets the modifier to RECT; in particular two-point
    mode is not entered in the middle of a drag. *)
Theorem X10_ctrl_ignored_during_one_point_drag :
  forall (w : World) (e : KeyboardEvent),
    capturingState (selector w) = true ->
    isTwoPoints (selector w) = false ->
    shiftKey e = false ->
    step w (KeyDown e) = w /\
    step w (KeyUp e) = upd (set_selectionModificator RECT) w /\
    isTwoPoints (selector (step (step w (KeyDown e)) (KeyUp e))) = false /\
    capturingState (selector (step (step w (KeyDown e)) (KeyUp e))) = true.
Proof.
  intros w e Hc H2 Hs.
  destruct e as [sh ct]. cbn in Hs. subst sh.
  open_world w; try discriminate Hc; try discriminate H2;
    destruct ct; repeat split; reflexivity.
Qed.

Lemma X10_ctrl_ignored_during_one_point_drag_witness :
  step draggingWorld (KeyDown ctrlDown) = draggingWorld.
Proof.
  apply (X10_ctrl_ignored_during_one_point_drag draggingWorld ctrlDown);
    reflexivity.
Defined.

(** X11: [hide()] and [show()] are not inverse to each other.  [hide()]
    hides the node, [crossA], [crossB] and the mask and is idempotent;
    [show()] shows the node and [crossA] only, so after [hide()] then
    [show()] the second cross and the mask stay hidden.  Neither moves a
    cross or the selection box, writes a flag or calls a hook. *)
Theorem X11_hide_show :
  forall (s : RectSelector),
    hide (hide s) = hide s /\
    show (show s) = show s /\
    (isVisible (show (hide s)) = true /\
     CrossElement.isVisible (crossA (show (hide s))) = true /\
     CrossElement.isVisible (crossB (show (hide s))) = false /\
     MaskElement.isVisible (mask (show (hide s))) = false) /\
    (CrossElement.point (crossA (hide s)) = CrossElement.point (crossA s) /\
     CrossElement.point (crossB (hide s)) = CrossElement.point (crossB s) /\
     selectionBox (hide s) = selectionBox s /\
     capturingState (hide s) = capturingState s /\
     isTwoPoints (hide s) = isTwoPoints s /\
     selectionModificator (hide s) = selectionModificator s) /\
    (CrossElement.point (crossA (show s)) = CrossElement.point (crossA s) /\
     CrossElement.point (crossB (show s)) = CrossElement.point (crossB s) /\
     selectionBox (show s) = selectionBox s /\
     capturingState (show s) = capturingState s /\
     isTwoPoints (show s) = isTwoPoints s /\
     selectionModificator (show s) = selectionModificator s /\
     CrossElement.isVisible (crossB (show s))
     = CrossElement.isVisible (crossB s) /\
     MaskElement.isVisible (mask (show s)) = MaskElement.isVisible (mask s)).
Proof.
  intros s.
  destruct s as [br cbk vis [ax ay av] [bx by_ bv] sb [mv] cap two md].
  repeat split; reflexivity.
Qed.

(* ================================================================== *)
(** * Further properties of the CSV export                             *)
(* ================================================================== *)

Module CsvRunFacts.
Import CsvExportProvider CsvRun.

Lemma binaryWrites_app (l1 l2 : list ExportEffect) :
  binaryWrites (l1 ++ l2) = binaryWrites l1 ++ binaryWrites l2.
Proof.
  induction l1 as [|eff l1 IH]; simpl; [reflexivity|].
  destruct eff; simpl; now rewrite IH.
Qed.

Lemma toasts_app (l1 l2 : list ExportEffect) :
  toasts (l1 ++ l2) = toasts l1 ++ toasts l2.
Proof.
  induction l1 as [|eff l1 IH]; simpl; [reflexivity|].
  destruct eff; simpl; now rewrite IH.
Qed.

Section Run.

Variable readAssetAttributes : Asset.t -> Size.t.
Variable includeImages : bool.

(** One turn of the loop on an asset that passes both checks. *)
Lemma exportAsset_accepted (m : AssetMetadata.t) :
  accepted (readAssetAttributes (AssetMetadata.asset m)) m = true ->
  exportAsset readAssetAttributes includeImages m
  = mkIteration m (assetItems m)
      (if includeImages then [WriteBinary (imagePath m)] else []).
Proof.
  unfold accepted, exportAsset. intros H.
  apply andb_prop in H. destruct H as [H Hh].
  apply andb_prop in H. destruct H as [Hc Hw].
  apply negb_true_iff in Hc. rewrite Hc, Hw, Hh. reflexivity.
Qed.

(** One turn of the loop on an asset that fails a check. *)
Lemma exportAsset_not_accepted (m : AssetMetadata.t) :
  accepted (readAssetAttributes (AssetMetadata.asset m)) m = false ->
  let m' := AssetMetadata.mk
              (Asset.set_state NotVisited (AssetMetadata.asset m))
              (popRegions (AssetMetadata.regions m)) in
  exportAsset readAssetAttributes includeImages m
  = mkIteration m' []
      [Save m'; AssetClicked (AssetMetadata.asset m');
       ToastError
         (rejectionMessage (readAssetAttributes (AssetMetadata.asset m)) m)].
Proof.
  unfold accepted, exportAsset, rejectionMessage, rejectAsset. intros H.
  destruct (checkRegions (readAssetAttributes (AssetMetadata.asset m))
                         (AssetMetadata.regions m)); [reflexivity|].
  simpl in H. rewrite <- negb_andb.
  simpl. rewrite H. reflexivity.
Qed.

Lemma export_log (results : list AssetMetadata.t) :
  log (export readAssetAttributes includeImages results)
  = flat_map
      (fun m => effects (exportAsset readAssetAttributes includeImages m))
      results.
Proof.
  induction results as [|m rest IH]; simpl; [reflexivity|].
  now rewrite IH.
Qed.

End Run.

Lemma export_dataItems_accepted
      (read : Asset.t -> Size.t) (inc : bool)
      (results : list AssetMetadata.t) :
  dataItems (export read inc results)
  = flat_map assetItems
      (filter (fun m => accepted (read (AssetMetadata.asset m)) m) results).
Proof.
  induction results as [|m rest IH]; simpl; [reflexivity|].
  rewrite IH.
  destruct (accepted (read (AssetMetadata.asset m)) m) eqn:Ha.
  - rewrite (exportAsset_accepted read inc m Ha). reflexivity.
  - rewrite (exportAsset_not_accepted read inc m Ha). reflexivity.
Qed.

Lemma export_app (read : Asset.t -> Size.t) (inc : bool)
      (l1 l2 : list AssetMetadata.t) :
  export read inc (l1 ++ l2)
  = mkExported
      (assets (export read inc l1) ++ assets (export read inc l2))
      (dataItems (export read inc l1) ++ dataItems (export read inc l2))
      (log (export read inc l1) ++ log (export read inc l2)).
Proof.
  induction l1 as [|m l1 IH]; simpl.
  - destruct (export read inc l2); reflexivity.
  - rewrite IH. simpl. now rewrite !app_assoc.
Qed.



(** X13: no record of the CSV data reaches beyond the image it belongs
    to.  Every record comes from a tag of a region of an asset of the
    input whose recorded size is its measured size; it carries the name of
    the asset and the tag, its [xmin], [ymin] are the left and top of the
    bounding box, and its [xmax] and [ymax] do not exceed the measured
    width and height. *)
Theorem X13_records_within_measured_size :
  forall (readAssetAttributes : Asset.t -> Size.t) (includeImages : bool)
         (results : list AssetMetadata.t) (item : DataItem.t),
    In item (dataItems (export readAssetAttributes includeImages results)) ->
    exists (m : AssetMetadata.t) (reg : Region.t),
      In m results /\ In reg (AssetMetadata.regions m) /\
      In (DataItem.label item) (Region.tags reg) /\
      DataItem.image item = Asset.name (AssetMetadata.asset m) /\
      DataItem.xmin item = BoundingBox.left (Region.boundingBox reg) /\
      DataItem.ymin item = BoundingBox.top (Region.boundingBox reg) /\
      Asset.size (AssetMetadata.asset m)
      = readAssetAttributes (AssetMetadata.asset m) /\
      DataItem.xmax item
      <= Size.width (readAssetAttributes (AssetMetadata.asset m)) /\
      DataItem.ymax item
      <= Size.height (readAssetAttributes (AssetMetadata.asset m)).
Proof.
  intros read inc results item Hin.
  rewrite export_dataItems_accepted in Hin.
  apply in_flat_map in Hin. destruct Hin as (m & Hm & Hitem).
  apply filter_In in Hm. destruct Hm as [Hm Ha].
  unfold assetItems in Hitem. apply in_flat_map in Hitem.
  destruct Hitem as (reg & Hreg & Hitem).
  unfold regionItems in Hitem. apply in_map_iff in Hitem.
  destruct Hitem as (tag & <- & Htag).
  exists m, reg. simpl.
  unfold accepted in Ha.
  apply andb_prop in Ha. destruct Ha as [Ha Hh].
  apply andb_prop in Ha. destruct Ha as [Hc Hw].
  apply negb_true_iff in Hc.
  apply Z.eqb_eq in Hw. apply Z.eqb_eq in Hh.
  assert (Hnot : ~ exceeds (read (AssetMetadata.asset m)) reg).
  { intros Hex.
    assert (checkRegions (read (AssetMetadata.asset m))
                         (AssetMetadata.regions m) = true).
    { apply CsvFacts.checkRegions_true. exists reg.
      split; [exact Hreg|]. split; [|exact Hex].
      intros Hnil. rewrite Hnil in Htag. exact Htag. }
    congruence. }
  unfold exceeds in Hnot.
  repeat split; try assumption; try reflexivity; try lia.
  destruct (Asset.size (AssetMetadata.asset m)) as [w h].
  destruct (read (AssetMetadata.asset m)) as [W H].
  simpl in Hw, Hh. congruence.
Qed.

Lemma X13_records_within_measured_size_witness :
  exists (m : AssetMetadata.t) (reg : Region.t),
    In m [Samples.mixedAsset] /\ In reg (AssetMetadata.regions m) /\
    In "pet"%string (Region.tags reg) /\
    "image_1.jpg"%string = Asset.name (AssetMetadata.asset m) /\
    1 = BoundingBox.left (Region.boundingBox reg) /\
    2 = BoundingBox.top (Region.boundingBox reg) /\
    Asset.size (AssetMetadata.asset m)
    = Samples.measure100 (AssetMetadata.asset m) /\
    11 <= Size.width (Samples.measure100 (AssetMetadata.asset m)) /\
    22 <= Size.height (Samples.measure100 (AssetMetadata.asset m)).
Proof.
  apply (X13_records_within_measured_size Samples.measure100 false
           [Samples.mixedAsset]
           (DataItem.mk "image_1.jpg" 1 2 11 22 "pet")).
  right. left. reflexivity.
Defined.

(** X14: every asset is judged on its own.  Exporting a list of assets
    gives the assets, the records and the effects of exporting its first
    part followed by those of exporting the rest. *)
Theorem X14_export_of_concatenation :
  forall (readAssetAttributes : Asset.t -> Size.t) (includeImages : bool)
         (l1 l2 : list AssetMetadata.t),
    assets (export readAssetAttributes includeImages (l1 ++ l2))
    = assets (export readAssetAttributes includeImages l1)
      ++ assets (export readAssetAttributes includeImages l2) /\
    dataItems (export readAssetAttributes includeImages (l1 ++ l2))
    = dataItems (export readAssetAttributes includeImages l1)
      ++ dataItems (export readAssetAttributes includeImages l2) /\
    log (export readAssetAttributes includeImages (l1 ++ l2))
    = log (export readAssetAttributes includeImages l1)
      ++ log (export readAssetAttributes includeImages l2).
Proof.
  intros read inc l1 l2. rewrite export_app. repeat split; reflexivity.
Qed.

Lemma half_le (n : nat) : (n / 2 <= n)%nat.
Proof.
  apply Nat.Div0.div_le_upper_bound. lia.
Qed.

Lemma half_zero_iff (n : nat) : (n / 2 = 0 <-> n <= 1)%nat.
Proof.
  split.
  - intros H. destruct n as [|[|n]]; [lia | lia |].
    assert (1 <= S (S n) / 2)%nat by (apply Nat.div_le_lower_bound; lia).
    lia.
  - intros H. destruct n as [|[|n]]; [reflexivity | reflexivity | lia].
Qed.

(** X15: the regions of a rejected asset are not all removed.  The loop
    [for (const ar of regions) { regions.pop() }] stops as soon as its
    index reaches the shrinking length: of [n] regions the first [n / 2]
    (rounded down) stay, in their order, so the list ends empty exactly
    when the asset had at most one region.  The asset ends in state
    [NotVisited] with its name and size as before. *)
Theorem X15_rejected_asset_keeps_half_of_its_regions :
  forall (readAssetAttributes : Asset.t -> Size.t) (includeImages : bool)
         (m : AssetMetadata.t),
    accepted (readAssetAttributes (AssetMetadata.asset m)) m = false ->
    let m' := metadata (exportAsset readAssetAttributes includeImages m) in
    AssetMetadata.regions m'
    = firstn (List.length (AssetMetadata.regions m) / 2)
             (AssetMetadata.regions m) /\
    List.length (AssetMetadata.regions m')
    = (List.length (AssetMetadata.regions m) / 2)%nat /\
    (AssetMetadata.regions m' = [] <->
     (List.length (AssetMetadata.regions m) <= 1)%nat) /\
    AssetMetadata.asset m'
    = Asset.set_state NotVisited (AssetMetadata.asset m).
Proof.
  intros read inc m Ha m'. subst m'.
  rewrite (exportAsset_not_accepted read inc m Ha).
  cbn [metadata AssetMetadata.regions AssetMetadata.asset].
  rewrite CsvFacts.popRegions_firstn.
  pose proof (half_le (List.length (AssetMetadata.regions m))) as Hhalf.
  assert (Hlen : List.length
                   (firstn (List.length (AssetMetadata.regions m) / 2)
                           (AssetMetadata.regions m))
                 = (List.length (AssetMetadata.regions m) / 2)%nat).
  { rewrite length_firstn. apply Nat.min_l. exact Hhalf. }
  split; [reflexivity|]. split; [exact Hlen|]. split; [|reflexivity].
  rewrite <- half_zero_iff. split.
  - intros Hnil. rewrite Hnil in Hlen. symmetry. exact Hlen.
  - intros Hz. apply length_zero_iff_nil. now rewrite Hlen.
Qed.

Lemma X15_rejected_asset_keeps_half_of_its_regions_witness :
  AssetMetadata.regions
    (metadata (exportAsset Samples.measure100 false Samples.exceedingAsset))
  = firstn (List.length (AssetMetadata.regions Samples.exceedingAsset) / 2)
           (AssetMetadata.regions Samples.exceedingAsset).
Proof.
  apply (X15_rejected_asset_keeps_half_of_its_regions
           Samples.measure100 false Samples.exceedingAsset).
  reflexivity.
Defined.

Lemma export_effects_of_asset (read : Asset.t -> Size.t) (inc : bool)
      (m : AssetMetadata.t) :
  toasts (effects (exportAsset read inc m))
  = (if accepted (read (AssetMetadata.asset m)) m then []
     else [rejectionMessage (read (AssetMetadata.asset m)) m]) /\
  binaryWrites (effects (exportAsset read inc m))
  = (if accepted (read (AssetMetadata.asset m)) m && inc
     then [imagePath m] else []).
Proof.
  destruct (accepted (read (AssetMetadata.asset m)) m) eqn:Ha.
  - rewrite (exportAsset_accepted read inc m Ha).
    destruct inc; split; reflexivity.
  - rewrite (exportAsset_not_accepted read inc m Ha).
    split; reflexivity.
Qed.

(** X16: the export reports every rejected asset once, in the order of
    the input, and no other: the error messages shown are those of the
    assets that fail a check.  The check of the regions comes first: an
    asset with a tagged region out of bounds is reported as
    ["Out Of bounds" + name] even when its recorded size is wrong as well,
    and as ["Resized image " + name] only when its regions pass. *)
Theorem X16_one_message_per_rejected_asset :
  forall (readAssetAttributes : Asset.t -> Size.t) (includeImages : bool)
         (results : list AssetMetadata.t),
    toasts (log (export readAssetAttributes includeImages results))
    = map (fun m => rejectionMessage
                      (readAssetAttributes (AssetMetadata.asset m)) m)
          (filter (fun m => negb (accepted (readAssetAttributes
                                              (AssetMetadata.asset m)) m))
                  results) /\
    (forall m : AssetMetadata.t,
        taggedOutOfBounds (readAssetAttributes (AssetMetadata.asset m)) m ->
        rejectionMessage (readAssetAttributes (AssetMetadata.asset m)) m
        = String.append "Out Of bounds"
                        (Asset.name (AssetMetadata.asset m))).
Proof.
  intros read inc results. split.
  - rewrite export_log.
    induction results as [|m rest IH]; simpl; [reflexivity|].
    rewrite toasts_app, IH.
    destruct (export_effects_of_asset read inc m) as [Ht _]. rewrite Ht.
    destruct (accepted (read (AssetMetadata.asset m)) m); reflexivity.
  - intros m Hoob. unfold rejectionMessage.
    apply CsvFacts.checkRegions_true in Hoob. now rewrite Hoob.
Qed.

Lemma X16_one_message_per_rejected_asset_witness :
  rejectionMessage (Samples.measure100 Samples.image1) Samples.exceedingAsset
  = String.append "Out Of bounds" "image_1.jpg".
Proof.
  apply (proj2 (X16_one_message_per_rejected_asset
                  Samples.measure100 false [])
               Samples.exceedingAsset).
  exists Samples.taggedBig.
  split; [left; reflexivity|].
  split; [discriminate|].
  left. reflexivity.
Defined.

(** X17: images are written for accepted assets only.  With
    [includeImages] set the export writes one image per accepted asset, to
    the path ["vott-csv-export/" + name], in the order of the input;
    without it no image is written; a rejected asset is never written. *)
Theorem X17_images_written_for_accepted_assets :
  forall (readAssetAttributes : Asset.t -> Size.t) (includeImages : bool)
         (results : list AssetMetadata.t),
    binaryWrites (log (export readAssetAttributes includeImages results))
    = (if includeImages
       then map imagePath
                (filter (fun m => accepted (readAssetAttributes
                                              (AssetMetadata.asset m)) m)
                        results)
       else []).
Proof.
  intros read inc results. rewrite export_log.
  induction results as [|m rest IH]; simpl.
  - destruct inc; reflexivity.
  - rewrite binaryWrites_app, IH.
    destruct (export_effects_of_asset read inc m) as [_ Hb]. rewrite Hb.
    destruct (accepted (read (AssetMetadata.asset m)) m), inc; reflexivity.
Qed.

Lemma replaceWhiteSpace_clean (name : JsString) :
  forallb (fun c => negb (isWhiteSpace c)) (replaceWhiteSpace name) = true.
Proof.
  unfold replaceWhiteSpace.
  induction name as [|c name IH]; simpl; [reflexivity|].
  rewrite IH, andb_true_r.
  destruct (isWhiteSpace c) eqn:Hc; [reflexivity|].
  now rewrite Hc.
Qed.

(** X18: the name of the CSV file holds no white space.  Every white
    space or line terminator of the project name is replaced by one ["-"],
    the other code units stay, so the length of the name is kept; a name
    without white space is used as it is; the file name is
    ["vott-csv-export/"], the replaced name and ["-export.csv"]. *)
Theorem X18_file_name_has_no_white_space :
  forall (projectName : JsString),
    forallb (fun c => negb (isWhiteSpace c)) (exportFileName projectName)
    = true /\
    List.length (replaceWhiteSpace projectName) = List.length projectName /\
    replaceWhiteSpace (replaceWhiteSpace projectName)
    = replaceWhiteSpace projectName /\
    (forallb (fun c => negb (isWhiteSpace c)) projectName = true ->
     replaceWhiteSpace projectName = projectName) /\
    (forall i c,
        nth_error projectName i = Some c ->
        nth_error (replaceWhiteSpace projectName) i
        = Some (if isWhiteSpace c then 45%N else c)).
Proof.
  intros name. split; [|split; [|split; [|split]]].
  - unfold exportFileName. rewrite !forallb_app, replaceWhiteSpace_clean.
    reflexivity.
  - apply length_map.
  - unfold replaceWhiteSpace. rewrite map_map. apply map_ext.
    intros c. destruct (isWhiteSpace c) eqn:Hc; [reflexivity|].
    now rewrite Hc.
  - unfold replaceWhiteSpace.
    induction name as [|c name IH]; simpl; [reflexivity|].
    intros H. apply andb_prop in H. destruct H as [Hc Hrest].
    apply negb_true_iff in Hc. rewrite Hc, (IH Hrest). reflexivity.
  - intros i c Hnth. unfold replaceWhiteSpace.
    rewrite nth_error_map, Hnth. reflexivity.
Qed.

Lemma X18_file_name_has_no_white_space_witness :
  exportFileName (codeUnits "my first project")
  = codeUnits "vott-csv-export/my-first-project-export.csv" /\
  replaceWhiteSpace (codeUnits "plain") = codeUnits "plain".
Proof.
  split; [reflexivity|].
  apply (X18_file_name_has_no_white_space (codeUnits "plain")).
  reflexivity.
Defined.

End CsvRunFacts.

(* ================================================================== *)
(** * The editor toolbar                                               *)
(* ================================================================== *)

Module EditorToolbarFacts.
Import EditorToolbar.

Section Highlight.

Variable ToolbarItemName : Type.
Variable ToolbarItemType : Type.
Variable name_eqb : ToolbarItemName -> ToolbarItemName -> bool.
Variable type_eqb : ToolbarItemType -> ToolbarItemType -> bool.
Variable truthy : ToolbarItemName -> bool.
Variable StateType : ToolbarItemType.

(** [===] on the values of the two enums is equality. *)
Hypothesis name_eqb_eq : forall a b, name_eqb a b = true <-> a = b.
Hypothesis type_eqb_eq : forall a b, type_eqb a b = true <-> a = b.

Lemma isComponentActive_true (selected : ToolbarItemName)
      (reg : Registration ToolbarItemName ToolbarItemType) :
  isComponentActive name_eqb type_eqb truthy StateType selected reg = true
  <-> truthy selected = true /\ config_name reg = selected /\
      config_type reg = StateType.
Proof.
  unfold isComponentActive.
  destruct (truthy selected).
  - rewrite andb_true_iff, name_eqb_eq, type_eqb_eq.
    split; intros (H1 & H2); repeat split; try tauto;
      destruct H2; congruence.
  - split; [discriminate | intros (H & _); discriminate H].
Qed.

Lemma no_active_without_name (selected : ToolbarItemName)
      (items : list (Registration ToolbarItemName ToolbarItemType)) :
  ~ In selected (map config_name items) ->
  filter (isComponentActive name_eqb type_eqb truthy StateType selected)
         items = [].
Proof.
  induction items as [|reg items IH]; simpl; [reflexivity|].
  intros Hnot.
  destruct (isComponentActive name_eqb type_eqb truthy StateType
                              selected reg) eqn:Ha.
  - apply isComponentActive_true in Ha. destruct Ha as (_ & Hn & _).
    elim Hnot. now left.
  - apply IH. intros Hin. apply Hnot. now right.
Qed.

Lemma active_items_unique (selected : ToolbarItemName)
      (items : list (Registration ToolbarItemName ToolbarItemType)) :
  NoDup (map config_name items) ->
  (List.length
     (filter (isComponentActive name_eqb type_eqb truthy StateType selected)
             items) <= 1)%nat.
Proof.
  induction items as [|reg items IH]; simpl; [lia|].
  intros Hnd. inversion Hnd as [|n ns Hnotin Hnd' Heq]; subst.
  destruct (isComponentActive name_eqb type_eqb truthy StateType
                              selected reg) eqn:Ha.
  - apply isComponentActive_true in Ha. destruct Ha as (_ & Hn & _).
    rewrite no_active_without_name by (rewrite <- Hn; exact Hnotin).
    simpl. lia.
  - now apply IH.
Qed.

End Highlight.

(** X19: the toolbar highlights at most one item.  An item is active
    exactly when the selected name is truthy, is the name of the item and
    the item is of type State; so among items with distinct names at most
    one is active, and after [onToolbarItemSelected] for a State item of
    the toolbar with a truthy name that item, and no other, is active and
    has been handed to the callback of the page, last. *)
Theorem X19_at_most_one_active_item :
  forall (ToolbarItemName ToolbarItemType : Type)
         (name_eqb : ToolbarItemName -> ToolbarItemName -> bool)
         (type_eqb : ToolbarItemType -> ToolbarItemType -> bool)
         (truthy : ToolbarItemName -> bool) (StateType : ToolbarItemType),
    (forall a b, name_eqb a b = true <-> a = b) ->
    (forall a b, type_eqb a b = true <-> a = b) ->
    forall (items : list (Registration ToolbarItemName ToolbarItemType))
           (st : ToolbarState ToolbarItemName
                 * list (Registration ToolbarItemName ToolbarItemType))
           (item : Registration ToolbarItemName ToolbarItemType),
      NoDup (map config_name items) ->
      (List.length
         (filter (isComponentActive name_eqb type_eqb truthy StateType
                                    (selectedItem (fst st)))
                 items) <= 1)%nat /\
      (In item items ->
       truthy (config_name item) = true ->
       config_type item = StateType ->
       let st' := onToolbarItemSelected item st in
       filter (isComponentActive name_eqb type_eqb truthy StateType
                                 (selectedItem (fst st')))
              items = [item] /\
       snd st' = snd st ++ [item]).
Proof.
  intros N T name_eqb type_eqb truthy StateType Hn Ht items st item Hnd.
  split.
  - now apply active_items_unique.
  - intros Hin Htr Hty st'. subst st'. simpl. split; [|reflexivity].
    pose proof (active_items_unique N T name_eqb type_eqb truthy StateType
                  Hn Ht (config_name item) items Hnd) as Hle.
    assert (Hact : In item
                     (filter (isComponentActive name_eqb type_eqb truthy
                                StateType (config_name item)) items)).
    { apply filter_In. split; [exact Hin|].
      apply (isComponentActive_true N T name_eqb type_eqb truthy StateType
               Hn Ht). auto. }
    destruct (filter (isComponentActive name_eqb type_eqb truthy StateType
                        (config_name item)) items) as [|r [|r' rest]].
    + destruct Hact.
    + destruct Hact as [-> | []]. reflexivity.
    + simpl in Hle. lia.
Qed.

Lemma X19_at_most_one_active_item_witness :
  (List.length
     (filter (isComponentActive String.eqb Bool.eqb
                (fun n => negb (String.eqb n "")) true "drawRectangle"%string)
             [mkRegistration "selectCanvas"%string true;
              mkRegistration "drawRectangle"%string true;
              mkRegistration "saveProject"%string false]) <= 1)%nat.
Proof.
  apply (X19_at_most_one_active_item string bool String.eqb Bool.eqb
           (fun n => negb (String.eqb n "")) true
           String.eqb_eq (fun a b => Bool.eqb_true_iff a b)
           [mkRegistration "selectCanvas"%string true;
            mkRegistration "drawRectangle"%string true;
            mkRegistration "saveProject"%string false]
           (mkToolbarState "drawRectangle"%string, [])
           (mkRegistration "drawRectangle"%string true)).
  repeat constructor; simpl; intuition discriminate.
Defined.

End EditorToolbarFacts.
